(** * Overwitch command-line launcher ([src/main-cli.c])

    A shallow embedding of the launcher: option parsing and validation
    ([main]), the single-device and all-devices runs ([run_single],
    [run_all]) and the signal handler ([signal_handler]).

    The launcher is a thin layer over external code: the C library
    ([getopt_long], [strtol], [pthread_create], [pthread_join], stdio) and
    the other compilation units of the program ([jclient_init],
    [jclient_exit], [ow_get_devices], [print_devices], ...).  Calls to these
    are recorded, in program order, in a trace of events; what they return is
    read from a [world] record.  [strtol] is modelled in full because the
    validation of numeric options depends on it. *)

From Stdlib Require Import ZArith Lia Ascii String.
From stdpp Require Import base list strings.

Local Open Scope string_scope.
Local Open Scope list_scope.
Local Open Scope Z_scope.

(** ** Constants *)

(* main-cli.c, lines 28-30 *)
Definition DEFAULT_QUALITY : Z := 2.
Definition DEFAULT_BLOCKS : Z := 24.
Definition DEFAULT_PRIORITY : Z := -1.

(* <stdlib.h> *)
Definition EXIT_SUCCESS : Z := 0.
Definition EXIT_FAILURE : Z := 1.

(* <errno.h>, <limits.h>: the LP64 data model of 64-bit Linux, [int] of 32
   bits and [long] of 64. *)
Definition ERANGE : Z := 34.
Definition INT_BITS : Z := 32.
Definition LONG_BITS : Z := 64.
Definition INT_MIN : Z := - 2 ^ (INT_BITS - 1).
Definition INT_MAX : Z := 2 ^ (INT_BITS - 1) - 1.
Definition LONG_MIN : Z := - 2 ^ (LONG_BITS - 1).
Definition LONG_MAX : Z := 2 ^ (LONG_BITS - 1) - 1.

(** Modelled from the spec: the enumeration [ow_err_t] is declared in a
    header of the library, not in the launcher.  [OW_OK] is the success
    status; the tests [if (err)] of the launcher read every other value as a
    failure, and [OW_GENERIC_ERROR] is one of those. *)
Definition ow_err_t := Z.
Definition OW_OK : ow_err_t := 0.
Definition OW_GENERIC_ERROR : ow_err_t := 1.

(** ** Data *)

(** Modelled from the spec: [struct ow_usb_device] is declared in a header
    of the library, not in the launcher; the launcher reads [bus] and
    [address], and selection by name compares the name the platform
    reports. *)
Record ow_usb_device := {
  dev_name : string;
  dev_bus : Z;
  dev_address : Z
}.

(** The fields of [struct jclient] the launcher writes.  The two callbacks
    are pointers, [None] for [NULL]. *)
Record jclient := {
  jc_bus : Z;
  jc_address : Z;
  jc_blocks_per_transfer : Z;
  jc_quality : Z;
  jc_priority : Z;
  jc_reporter_callback : option nat;
  jc_reporter_period : Z;
  jc_end_notifier : option nat
}.

Definition pthread_t := nat.

(** [struct overwitch_instance].  [malloc] returns indeterminate bytes: a
    field that has not been written yet is [None]. *)
Record overwitch_instance := {
  thread : option pthread_t;
  inst_jclient : option jclient
}.

Definition uninitialized_instance : overwitch_instance :=
  {| thread := None; inst_jclient := None |}.

(** What [fprintf (stderr, ...)] prints. *)
Inductive message :=
| MsgQuality (used : Z)     (* "Resampling quality value must be in [0..4]. Using value %d..." *)
| MsgBlocks (used : Z)      (* "Blocks value must be in [2..32]. Using value %d..." *)
| MsgPriority               (* "Priority value must be in [0..99]. Using default JACK value..." *)
| MsgUsbError (err : ow_err_t)   (* "USB error: %s" *)
| MsgUndeterminedBlocks     (* "Undetermined blocks" *)
| MsgUndeterminedPriority   (* "Undetermined priority" *)
| MsgDeviceNotProvided.     (* "Device not provided properly" *)

(** Calls that leave the launcher, in program order. *)
Inductive event :=
| EvStderr (m : message)
| EvPrintHelp
| EvPrintDevices
| EvGetDevices
| EvGetDevice (device_num : Z) (device_name : option string)
| EvJclientInit (i : nat) (jc : jclient)
| EvPthreadCreate (i : nat)
| EvPthreadJoin (i : nat) (t : option pthread_t)
| EvJclientExit (i : nat)
| EvReportStatus (i : nat).

Inductive signal := SIGHUP | SIGINT | SIGTERM | SIGUSR1 | SIGOTHER (signo : Z).

(** The returns of [getopt_long] for the option table of lines 41-51 and the
    short options ["n:d:q:b:p:lvh"]: an option character, with [optarg] for
    the options that take an argument, or ['?'] for what it does not
    recognise. *)
Inductive getopt_ret :=
| opt_n (optarg : string)
| opt_d (optarg : string)
| opt_q (optarg : string)
| opt_b (optarg : string)
| opt_p (optarg : string)
| opt_l
| opt_v
| opt_h
| opt_unknown.

(** What the external calls return during one run. *)
Record world := {
  errno0 : Z;                                   (* [errno] when [main] is entered *)
  print_devices : ow_err_t;
  ow_get_devices : ow_err_t * list ow_usb_device;
  jclient_init : nat -> jclient -> Z            (* for the [i]-th instance *)
}.

(** The globals of the process: [errno], [debug_level], the two statics of
    lines 38-39, and the trace. *)
Record proc := {
  errno : Z;
  debug_level : Z;
  instance_count : nat;
  instances : list overwitch_instance;
  trace : list event
}.

Definition initial_proc (w : world) : proc :=
  {| errno := errno0 w; debug_level := 0; instance_count := 0;
     instances := []; trace := [] |}.

(** ** [strtol] and the conversion to [int] *)

Definition isspace (c : ascii) : bool :=
  let n := Z.of_nat (nat_of_ascii c) in
  (n =? 32) || ((9 <=? n) && (n <=? 13)).

Definition digit_of (c : ascii) : option Z :=
  let n := Z.of_nat (nat_of_ascii c) in
  if (48 <=? n) && (n <=? 57) then Some (n - 48) else None.

(* Number of leading white-space characters. *)
Fixpoint skip_space (s : string) : nat :=
  match s with
  | String c s' => if isspace c then S (skip_space s') else O
  | EmptyString => O
  end.

Fixpoint drop_chars (n : nat) (s : string) : string :=
  match n, s with
  | S n', String _ s' => drop_chars n' s'
  | _, _ => s
  end.

(* The decimal digits at the head of [s]: their value after [acc], and how
   many there are. *)
Fixpoint digits (s : string) (acc : Z) : Z * nat :=
  match s with
  | String c s' =>
      match digit_of c with
      | Some d => let '(v, n) := digits s' (10 * acc + d) in (v, S n)
      | None => (acc, O)
      end
  | EmptyString => (acc, O)
  end.

(** The number a string denotes, before [long] bounds it, and the offset of
    the first character that is not part of it; offset 0 when there is no
    digit where one is expected (no conversion). *)
Definition parse_decimal (nptr : string) : Z * nat :=
  let k1 := skip_space nptr in
  let s1 := drop_chars k1 nptr in
  let '(neg, k2) :=
    match s1 with
    | String "-"%char _ => (true, 1%nat)
    | String "+"%char _ => (false, 1%nat)
    | _ => (false, 0%nat)
    end in
  let '(v, k3) := digits (drop_chars k2 s1) 0 in
  match k3 with
  | O => (0, O)
  | _ => (if neg then - v else v, (k1 + k2 + k3)%nat)
  end.

Record strtol_result := {
  strtol_value : Z;      (* the [long] returned *)
  strtol_end : nat;      (* [endptr - nptr] *)
  strtol_erange : bool   (* [errno] is set to [ERANGE] *)
}.

(** [strtol (nptr, &endptr, 10)]: out of the range of [long] the result is
    [LONG_MAX] or [LONG_MIN] and [errno] becomes [ERANGE]; [errno] is left
    alone otherwise. *)
Definition strtol (nptr : string) : strtol_result :=
  let '(v, e) := parse_decimal nptr in
  if v >? LONG_MAX then
    {| strtol_value := LONG_MAX; strtol_end := e; strtol_erange := true |}
  else if v <? LONG_MIN then
    {| strtol_value := LONG_MIN; strtol_end := e; strtol_erange := true |}
  else
    {| strtol_value := v; strtol_end := e; strtol_erange := false |}.

(** [(int) x] for a [long] [x]: reduction modulo [2 ^ 32] into the range of
    [int]. *)
Definition to_int (x : Z) : Z :=
  (x + 2 ^ (INT_BITS - 1)) mod 2 ^ INT_BITS - 2 ^ (INT_BITS - 1).

(* [*endstr != '\0'] *)
Definition not_at_end (optarg : string) (endstr : nat) : bool :=
  match String.get endstr optarg with
  | Some _ => true
  | None => false
  end.

(** ** The monad of the launcher

    A computation reads and writes the process globals and either returns
    to its caller or leaves the process through [exit]. *)

Inductive result (A : Type) :=
| Ret (a : A)
| Exit (status : Z).
Arguments Ret {A} a.
Arguments Exit {A} status.

Definition M (A : Type) : Type := proc -> result A * proc.

#[global] Instance M_ret : MRet M := fun A a p => (Ret a, p).

#[global] Instance M_bind : MBind M := fun A B f m p =>
  match m p with
  | (Ret a, p') => f a p'
  | (Exit status, p') => (Exit status, p')
  end.

Definition exit {A : Type} (status : Z) : M A := fun p => (Exit status, p).

Definition when (b : bool) (m : M unit) : M unit :=
  if b then m else mret tt.

(* The status the process ends with: what [main] returns, or the argument
   of [exit]. *)
Definition exit_status (r : result Z) : Z :=
  match r with
  | Ret n => n
  | Exit n => n
  end.

Definition set_errno (e : Z) (p : proc) : proc :=
  {| errno := e; debug_level := debug_level p;
     instance_count := instance_count p; instances := instances p;
     trace := trace p |}.

Definition set_debug_level (v : Z) (p : proc) : proc :=
  {| errno := errno p; debug_level := v;
     instance_count := instance_count p; instances := instances p;
     trace := trace p |}.

Definition set_instance_count (n : nat) (p : proc) : proc :=
  {| errno := errno p; debug_level := debug_level p;
     instance_count := n; instances := instances p;
     trace := trace p |}.

Definition set_instances (l : list overwitch_instance) (p : proc) : proc :=
  {| errno := errno p; debug_level := debug_level p;
     instance_count := instance_count p; instances := l;
     trace := trace p |}.

Definition add_event (e : event) (p : proc) : proc :=
  {| errno := errno p; debug_level := debug_level p;
     instance_count := instance_count p; instances := instances p;
     trace := trace p ++ [e] |}.

Definition modify (f : proc -> proc) : M unit := fun p => (Ret tt, f p).
Definition gets {A : Type} (f : proc -> A) : M A := fun p => (Ret (f p), p).
Definition emit (e : event) : M unit := modify (add_event e).

(* [for (int i = 0; i < n; i++) body (i)], over the indices [seq 0 n]. *)
Fixpoint for_each (indices : list nat) (body : nat -> M unit) : M unit :=
  match indices with
  | [] => mret tt
  | i :: rest => body i;; for_each rest body
  end.

(** ** External calls *)

(* [(int) strtol (optarg, &endstr, 10)]: the value and [endstr - optarg]. *)
Definition call_strtol (optarg : string) : M (Z * nat) :=
  let r := strtol optarg in
  when (strtol_erange r) (modify (set_errno ERANGE));;
  mret (to_int (strtol_value r), strtol_end r).

Definition call_print_devices (w : world) : M ow_err_t :=
  emit EvPrintDevices;; mret (print_devices w).

Definition call_jclient_init (w : world) (i : nat) (jc : jclient) : M Z :=
  emit (EvJclientInit i jc);; mret (jclient_init w i jc).

(* [instances[i].jclient = jc], field by field in the source. *)
Definition store_jclient (i : nat) (jc : jclient) : M unit :=
  modify (fun p => set_instances
    (alter (fun inst => {| thread := thread inst; inst_jclient := Some jc |})
           i (instances p)) p).

(* [pthread_create (&instances[i].thread, NULL, jclient_run_thread,
   &instances[i].jclient)]: the handle of the new thread is written to the
   entry.  The source does not look at what the call returns. *)
Definition pthread_create (i : nat) : M unit :=
  emit (EvPthreadCreate i);;
  modify (fun p => set_instances
    (alter (fun inst => {| thread := Some i; inst_jclient := inst_jclient inst |})
           i (instances p)) p).

(* [pthread_join (instances[i].thread, NULL)]: the handle is read from the
   entry, whatever it holds.  The call is recorded and the run goes on; the
   time the call blocks is not modelled, and for a handle that was never
   written the C library makes no promise: [behaviour_of] below cuts a
   trace at the first such call. *)
Definition pthread_join (i : nat) : M unit :=
  t ← gets (fun p => instances p !! i ≫= thread);
  emit (EvPthreadJoin i t).

(* [free (instances)]: the block is gone, the pointer and [instance_count]
   keep their values. *)
Definition free_instances : M unit := modify (set_instances []).

(** Modelled from the spec: the outcomes of the single-device resolution,
    whose function is defined in the library, not in the launcher. *)
Inductive lookup_result :=
| Resolved (device : ow_usb_device)
| DeviceNotFound
| DeviceEnumerationError (err : ow_err_t).

(** Modelled from the spec: [ow_get_usb_device_from_device_attrs] is defined
    in the library, not in the launcher.  By index it resolves the Nth
    device in enumeration order and fails with [DeviceNotFound] when the
    index is out of range or the enumeration is empty; by name it resolves
    the first device whose reported name matches exactly and fails with
    [DeviceNotFound] otherwise; a failure of the enumeration is a
    [DeviceEnumerationError].  The launcher passes a null name when the
    device is given by its number. *)
Definition ow_get_usb_device_from_device_attrs (w : world)
    (device_num : Z) (device_name : option string) : lookup_result :=
  let '(err, devices) := ow_get_devices w in
  if negb (err =? 0) then DeviceEnumerationError err
  else
    match device_name with
    | None =>
        if device_num <? 0 then DeviceNotFound
        else match devices !! Z.to_nat device_num with
             | Some device => Resolved device
             | None => DeviceNotFound
             end
    | Some name =>
        match List.find (fun d => String.eqb (dev_name d) name) devices with
        | Some device => Resolved device
        | None => DeviceNotFound
        end
    end.

(** ** [signal_handler] (lines 53-72) *)

Definition signal_handler (signo : signal) : M unit :=
  match signo with
  | SIGHUP | SIGINT | SIGTERM =>
      n ← gets instance_count;
      for_each (seq 0 n) (fun i => emit (EvJclientExit i))
  | SIGUSR1 =>
      n ← gets instance_count;
      for_each (seq 0 n) (fun i => emit (EvReportStatus i))
  | SIGOTHER _ => mret tt
  end.

(** ** [run_single] (lines 74-111) *)

(* Lines 88-95 and 132-139: what is written to the [jclient] of an
   instance. *)
Definition mk_jclient (device : ow_usb_device)
    (blocks_per_transfer quality priority : Z) : jclient :=
  {| jc_bus := dev_bus device;
     jc_address := dev_address device;
     jc_blocks_per_transfer := blocks_per_transfer;
     jc_quality := quality;
     jc_priority := priority;
     jc_reporter_callback := None;
     jc_reporter_period := 2;
     jc_end_notifier := None |}.

Definition run_single (w : world) (device_num : Z) (device_name : option string)
    (blocks_per_transfer quality priority : Z) : M Z :=
  emit (EvGetDevice device_num device_name);;
  match ow_get_usb_device_from_device_attrs w device_num device_name with
  | Resolved device =>
      modify (set_instance_count 1);;
      modify (set_instances [uninitialized_instance]);;
      let jc := mk_jclient device blocks_per_transfer quality priority in
      store_jclient 0 jc;;
      err ← (r ← call_jclient_init w 0 jc;
             if negb (r =? 0) then mret OW_GENERIC_ERROR
             else pthread_create 0;; pthread_join 0;; mret OW_OK);
      (* end: *)
      free_instances;;
      mret err
  | _ => mret OW_GENERIC_ERROR
  end.

(** ** [run_all] (lines 113-161) *)

(* The loop of lines 130-148 from index [i] on, [devices] being what is left
   of the array. *)
Fixpoint spawn_loop (w : world) (blocks_per_transfer quality priority : Z)
    (i : nat) (devices : list ow_usb_device) : M unit :=
  match devices with
  | [] => mret tt
  | device :: rest =>
      let jc := mk_jclient device blocks_per_transfer quality priority in
      store_jclient i jc;;
      r ← call_jclient_init w i jc;
      (if negb (r =? 0) then mret tt (* continue *)
       else pthread_create i);;
      spawn_loop w blocks_per_transfer quality priority (S i) rest
  end.

Definition run_all (w : world) (blocks_per_transfer quality priority : Z) : M Z :=
  emit EvGetDevices;;
  let '(err, devices) := ow_get_devices w in
  modify (set_instance_count (length devices));;
  if negb (err =? 0) then mret err
  else
    n ← gets instance_count;
    modify (set_instances (replicate n uninitialized_instance));;
    spawn_loop w blocks_per_transfer quality priority 0 devices;;
    n ← gets instance_count;
    for_each (seq 0 n) pthread_join;;
    free_instances;;
    mret OW_OK.

(** ** [main] (lines 163-297) *)

(** The locals of [main] that the option loop writes.  The counters are
    [int]s incremented once per option; there are fewer options than
    [argc], an [int], so they do not wrap. *)
Record locals := {
  vflg : Z; lflg : Z; dflg : Z; bflg : Z; pflg : Z; nflg : Z; errflg : Z;
  device_name : option string;
  device_num : Z;
  blocks_per_transfer : Z;
  quality : Z;
  priority : Z
}.

(* Lines 167-176. *)
Definition initial_locals : locals :=
  {| vflg := 0; lflg := 0; dflg := 0; bflg := 0; pflg := 0; nflg := 0;
     errflg := 0;
     device_name := None;
     device_num := -1;
     blocks_per_transfer := DEFAULT_BLOCKS;
     quality := DEFAULT_QUALITY;
     priority := DEFAULT_PRIORITY |}.

Definition set_device_num (v : Z) (l : locals) : locals :=
  {| vflg := vflg l; lflg := lflg l; dflg := dflg l; bflg := bflg l;
     pflg := pflg l; nflg := nflg l + 1; errflg := errflg l;
     device_name := device_name l; device_num := v;
     blocks_per_transfer := blocks_per_transfer l; quality := quality l;
     priority := priority l |}.

Definition set_device_name (s : string) (l : locals) : locals :=
  {| vflg := vflg l; lflg := lflg l; dflg := dflg l + 1; bflg := bflg l;
     pflg := pflg l; nflg := nflg l; errflg := errflg l;
     device_name := Some s; device_num := device_num l;
     blocks_per_transfer := blocks_per_transfer l; quality := quality l;
     priority := priority l |}.

Definition set_quality (v : Z) (l : locals) : locals :=
  {| vflg := vflg l; lflg := lflg l; dflg := dflg l; bflg := bflg l;
     pflg := pflg l; nflg := nflg l; errflg := errflg l;
     device_name := device_name l; device_num := device_num l;
     blocks_per_transfer := blocks_per_transfer l; quality := v;
     priority := priority l |}.

Definition set_blocks (v : Z) (l : locals) : locals :=
  {| vflg := vflg l; lflg := lflg l; dflg := dflg l; bflg := bflg l + 1;
     pflg := pflg l; nflg := nflg l; errflg := errflg l;
     device_name := device_name l; device_num := device_num l;
     blocks_per_transfer := v; quality := quality l;
     priority := priority l |}.

Definition set_priority (v : Z) (l : locals) : locals :=
  {| vflg := vflg l; lflg := lflg l; dflg := dflg l; bflg := bflg l;
     pflg := pflg l + 1; nflg := nflg l; errflg := errflg l;
     device_name := device_name l; device_num := device_num l;
     blocks_per_transfer := blocks_per_transfer l; quality := quality l;
     priority := v |}.

Definition incr_lflg (l : locals) : locals :=
  {| vflg := vflg l; lflg := lflg l + 1; dflg := dflg l; bflg := bflg l;
     pflg := pflg l; nflg := nflg l; errflg := errflg l;
     device_name := device_name l; device_num := device_num l;
     blocks_per_transfer := blocks_per_transfer l; quality := quality l;
     priority := priority l |}.

Definition incr_vflg (l : locals) : locals :=
  {| vflg := vflg l + 1; lflg := lflg l; dflg := dflg l; bflg := bflg l;
     pflg := pflg l; nflg := nflg l; errflg := errflg l;
     device_name := device_name l; device_num := device_num l;
     blocks_per_transfer := blocks_per_transfer l; quality := quality l;
     priority := priority l |}.

Definition incr_errflg (l : locals) : locals :=
  {| vflg := vflg l; lflg := lflg l; dflg := dflg l; bflg := bflg l;
     pflg := pflg l; nflg := nflg l; errflg := errflg l + 1;
     device_name := device_name l; device_num := device_num l;
     blocks_per_transfer := blocks_per_transfer l; quality := quality l;
     priority := priority l |}.

(* The test of lines 201-202, 212-213 and 224-225 on a converted value:
   [errno || endstr == optarg || *endstr != '\0' || v < lo || v > hi]. *)
Definition rejected (e : Z) (optarg : string) (endstr : nat) (v lo hi : Z) : bool :=
  negb (e =? 0) || (endstr =? 0)%nat || not_at_end optarg endstr
  || (v <? lo) || (v >? hi).

(* One turn of the [switch] of lines 189-244.  The trace holds the calls of
   the launcher: what [getopt_long] writes on its own for an option it does
   not recognise is not in it, and neither is what a failing [fprintf]
   leaves in [errno]. *)
Definition handle_option (opt : getopt_ret) (l : locals) : M locals :=
  match opt with
  | opt_n optarg =>
      '(v, _) ← call_strtol optarg;
      mret (set_device_num v l)
  | opt_d optarg =>
      mret (set_device_name optarg l)
  | opt_q optarg =>
      '(v, endstr) ← call_strtol optarg;
      e ← gets errno;
      if rejected e optarg endstr v 0 4 then
        emit (EvStderr (MsgQuality DEFAULT_QUALITY));;
        mret (set_quality DEFAULT_QUALITY l)
      else mret (set_quality v l)
  | opt_b optarg =>
      '(v, endstr) ← call_strtol optarg;
      e ← gets errno;
      if rejected e optarg endstr v 2 32 then
        emit (EvStderr (MsgBlocks DEFAULT_BLOCKS));;
        mret (set_blocks DEFAULT_BLOCKS l)
      else mret (set_blocks v l)
  | opt_p optarg =>
      '(v, endstr) ← call_strtol optarg;
      e ← gets errno;
      if rejected e optarg endstr v 0 99 then
        emit (EvStderr MsgPriority);;
        mret (set_priority (-1) l)
      else mret (set_priority v l)
  | opt_l => mret (incr_lflg l)
  | opt_v => mret (incr_vflg l)
  | opt_h => emit EvPrintHelp;; exit EXIT_SUCCESS
  | opt_unknown => mret (incr_errflg l)
  end.

(* The [while] of lines 186-245, over the successive returns of
   [getopt_long]. *)
Fixpoint getopt_loop (opts : list getopt_ret) (l : locals) : M locals :=
  match opts with
  | [] => mret l
  | opt :: rest => l' ← handle_option opt l; getopt_loop rest l'
  end.

(* Lines 258-296: the list of devices, the repeated options, the run. *)
Definition dispatch (w : world) (l : locals) : M Z :=
  when (negb (lflg l =? 0))
    (ow_err ← call_print_devices w;
     when (negb (ow_err =? 0))
       (emit (EvStderr (MsgUsbError ow_err));; exit EXIT_FAILURE);;
     exit EXIT_SUCCESS);;
  when (bflg l >? 1) (emit (EvStderr MsgUndeterminedBlocks);; exit EXIT_FAILURE);;
  when (pflg l >? 1) (emit (EvStderr MsgUndeterminedPriority);; exit EXIT_FAILURE);;
  if nflg l + dflg l =? 0 then
    run_all w (blocks_per_transfer l) (quality l) (priority l)
  else if nflg l + dflg l =? 1 then
    run_single w (device_num l) (device_name l)
               (blocks_per_transfer l) (quality l) (priority l)
  else
    emit (EvStderr MsgDeviceNotProvided);; exit EXIT_FAILURE.

(* Lines 247-296. *)
Definition after_options (w : world) (l : locals) : M Z :=
  when (errflg l >? 0) (emit EvPrintHelp;; exit EXIT_FAILURE);;
  when (negb (vflg l =? 0)) (modify (set_debug_level (vflg l)));;
  dispatch w l.

(** [main], given what [getopt_long] returns for the command line, call
    after call.  Lines 178-184 install [signal_handler] for the four
    signals and leave no other mark on the run. *)
Definition main (w : world) (opts : list getopt_ret) : M Z :=
  l ← getopt_loop opts initial_locals;
  after_options w l.

(* A whole run of the process: its exit status and its trace. *)
Definition run (w : world) (opts : list getopt_ret) : Z * list event :=
  let '(r, p) := main w opts (initial_proc w) in
  (exit_status r, trace p).

(** ** Reading traces *)

(* Calls that reach the device bus or a device. *)
Definition touches_device (e : event) : bool :=
  match e with
  | EvPrintDevices | EvGetDevices | EvGetDevice _ _
  | EvJclientInit _ _ | EvPthreadCreate _ => true
  | _ => false
  end.

(* Calls that start a worker: its initialization, or its thread. *)
Definition starts_worker (e : event) : bool :=
  match e with
  | EvJclientInit _ _ | EvPthreadCreate _ => true
  | _ => false
  end.

(* The instances a thread was created for, in order. *)
Fixpoint threads_created (t : list event) : list nat :=
  match t with
  | [] => []
  | EvPthreadCreate i :: t' => i :: threads_created t'
  | _ :: t' => threads_created t'
  end.

(* The joins, in order: the instance and the handle passed. *)
Fixpoint joins (t : list event) : list (nat * option pthread_t) :=
  match t with
  | [] => []
  | EvPthreadJoin i h :: t' => (i, h) :: joins t'
  | _ :: t' => joins t'
  end.

(* The instances [jclient_exit] was called on, in order. *)
Fixpoint stop_requests (t : list event) : list nat :=
  match t with
  | [] => []
  | EvJclientExit i :: t' => i :: stop_requests t'
  | _ :: t' => stop_requests t'
  end.

(* The messages written to [stderr], in order. *)
Fixpoint stderr_messages (t : list event) : list message :=
  match t with
  | [] => []
  | EvStderr m :: t' => m :: stderr_messages t'
  | _ :: t' => stderr_messages t'
  end.

(** ** Reading command lines *)

Definition is_opt_n (o : getopt_ret) : bool :=
  match o with opt_n _ => true | _ => false end.
Definition is_opt_d (o : getopt_ret) : bool :=
  match o with opt_d _ => true | _ => false end.
Definition is_opt_q (o : getopt_ret) : bool :=
  match o with opt_q _ => true | _ => false end.
Definition is_opt_b (o : getopt_ret) : bool :=
  match o with opt_b _ => true | _ => false end.
Definition is_opt_p (o : getopt_ret) : bool :=
  match o with opt_p _ => true | _ => false end.
Definition is_opt_l (o : getopt_ret) : bool :=
  match o with opt_l => true | _ => false end.
Definition is_opt_v (o : getopt_ret) : bool :=
  match o with opt_v => true | _ => false end.
Definition is_opt_h (o : getopt_ret) : bool :=
  match o with opt_h => true | _ => false end.
Definition is_opt_unknown (o : getopt_ret) : bool :=
  match o with opt_unknown => true | _ => false end.

(* How many times an option of the kind [f] is given. *)
Fixpoint times_given (f : getopt_ret -> bool) (opts : list getopt_ret) : Z :=
  match opts with
  | [] => 0
  | o :: rest => (if f o then 1 else 0) + times_given f rest
  end.

(* The warnings of the option loop. *)
Definition is_warning (e : event) : bool :=
  match e with
  | EvStderr (MsgQuality _) | EvStderr (MsgBlocks _) | EvStderr MsgPriority => true
  | _ => false
  end.

(** The locals and the process after the option loop has read [opts], seen
    from the locals and the process before it: every counter has grown by
    the number of its options, and the process has changed by [errno] and by
    warnings on [stderr] only. *)
Definition options_read (opts : list getopt_ret)
    (l : locals) (p : proc) (l' : locals) (p' : proc) : Prop :=
  vflg l' = vflg l + times_given is_opt_v opts /\
  lflg l' = lflg l + times_given is_opt_l opts /\
  dflg l' = dflg l + times_given is_opt_d opts /\
  bflg l' = bflg l + times_given is_opt_b opts /\
  pflg l' = pflg l + times_given is_opt_p opts /\
  nflg l' = nflg l + times_given is_opt_n opts /\
  errflg l' = errflg l + times_given is_opt_unknown opts /\
  debug_level p' = debug_level p /\
  instance_count p' = instance_count p /\
  instances p' = instances p /\
  exists t : list event,
    trace p' = trace p ++ t /\ Forall (fun e => is_warning e = true) t.

(** ** The spawn loop, written out

    Whether the initialization of instance [i] for [device] succeeds, the
    calls the loop of lines 130-148 makes from index [i] on, and the entries
    it leaves in the table. *)

Definition init_succeeds (w : world) (b q pr : Z)
    (i : nat) (device : ow_usb_device) : bool :=
  jclient_init w i (mk_jclient device b q pr) =? 0.

Fixpoint spawn_trace (w : world) (b q pr : Z)
    (i : nat) (devices : list ow_usb_device) : list event :=
  match devices with
  | [] => []
  | device :: rest =>
      EvJclientInit i (mk_jclient device b q pr)
      :: (if init_succeeds w b q pr i device then [EvPthreadCreate i] else [])
      ++ spawn_trace w b q pr (S i) rest
  end.

Fixpoint spawned (w : world) (b q pr : Z)
    (i : nat) (devices : list ow_usb_device) : list overwitch_instance :=
  match devices with
  | [] => []
  | device :: rest =>
      {| thread := if init_succeeds w b q pr i device then Some i else None;
         inst_jclient := Some (mk_jclient device b q pr) |}
      :: spawned w b q pr (S i) rest
  end.

(** ** More readers, and what the launcher keeps valid *)

(* The initializations, in order: the instance and what it was given. *)
Fixpoint inits (t : list event) : list (nat * jclient) :=
  match t with
  | [] => []
  | EvJclientInit i jc :: t' => (i, jc) :: inits t'
  | _ :: t' => inits t'
  end.

(* The instances [ow_resampler_report_status] was called for, in order. *)
Fixpoint status_reports (t : list event) : list nat :=
  match t with
  | [] => []
  | EvReportStatus i :: t' => i :: status_reports t'
  | _ :: t' => status_reports t'
  end.

(* Calls on a worker or its thread. *)
Definition is_worker_call (e : event) : bool :=
  match e with
  | EvJclientInit _ _ | EvPthreadCreate _ | EvPthreadJoin _ _ => true
  | _ => false
  end.

(* The ranges the three messages of lines 205-229 announce; -1 is the
   priority that leaves the choice to JACK. *)
Definition settings_valid (l : locals) : Prop :=
  0 <= quality l <= 4 /\
  2 <= blocks_per_transfer l <= 32 /\
  -1 <= priority l <= 99.

Definition jclient_valid (jc : jclient) : Prop :=
  0 <= jc_quality jc <= 4 /\
  2 <= jc_blocks_per_transfer jc <= 32 /\
  -1 <= jc_priority jc <= 99 /\
  jc_reporter_period jc = 2 /\
  jc_reporter_callback jc = None /\
  jc_end_notifier jc = None.

(* The handle [run_all] passes to [pthread_join] for instance [i]. *)
Definition joined_handle (w : world) (b q pr : Z)
    (i : nat) (device : ow_usb_device) : nat * option pthread_t :=
  (i, if init_succeeds w b q pr i device then Some i else None).

(* What ties the worker calls of a trace together: every initialization is
   given [mk_jclient] of some device with the settings [b], [q], [pr]; a
   thread is created only for an instance whose initialization succeeded,
   and is joined through its own handle. *)
Definition worker_calls_sound (w : world) (b q pr : Z) (t : list event) : Prop :=
  (forall (i : nat) (jc : jclient),
     (i, jc) ∈ inits t -> exists device, jc = mk_jclient device b q pr) /\
  (forall (i : nat),
     i ∈ threads_created t ->
     exists jc, (i, jc) ∈ inits t /\ jclient_init w i jc = 0 /\
                (i, Some i) ∈ joins t).

(** ** Calls the C library does not define *)

(* [pthread_join] on a handle that was never written. *)
Definition is_undefined_call (e : event) : bool :=
  match e with
  | EvPthreadJoin _ None => true
  | _ => false
  end.

(* The trace up to and including its first undefined call, when it has
   one. *)
Fixpoint undefined_prefix (t : list event) : option (list event) :=
  match t with
  | [] => None
  | e :: t' =>
      if is_undefined_call e then Some [e]
      else match undefined_prefix t' with
           | Some t1 => Some (e :: t1)
           | None => None
           end
  end.

(** What a run amounts to: it ends with a status after the calls of its
    trace, or it reaches an undefined call, after which neither a status nor
    a further call can be told from the source. *)
Inductive behaviour :=
| Ends (status : Z) (t : list event)
| Undefined (t : list event).

Definition behaviour_of (r : Z * list event) : behaviour :=
  match undefined_prefix r.2 with
  | Some t => Undefined t
  | None => Ends r.1 r.2
  end.

(* Every thread is created before the first join, for an instance whose
   initialization, made before that join too, succeeded. *)
Definition creations_sound (w : world) (t : list event) : Prop :=
  exists (ta tb : list event),
    t = ta ++ tb /\
    joins ta = [] /\
    threads_created tb = [] /\
    Forall (fun i => exists jc, (i, jc) ∈ inits ta /\ jclient_init w i jc = 0)
           (threads_created ta).

(** ** Sample runs *)

Definition dev_a : ow_usb_device :=
  {| dev_name := "Digitakt"; dev_bus := 1; dev_address := 5 |}.
Definition dev_b : ow_usb_device :=
  {| dev_name := "Digitone"; dev_bus := 1; dev_address := 7 |}.

(* A healthy bus with two devices that both initialize. *)
Definition healthy_world : world :=
  {| errno0 := 0; print_devices := OW_OK;
     ow_get_devices := (OW_OK, [dev_a; dev_b]);
     jclient_init := fun _ _ => 0 |}.

(* The same bus; the first device cannot be initialized. *)
Definition first_busy_world : world :=
  {| errno0 := 0; print_devices := OW_OK;
     ow_get_devices := (OW_OK, [dev_a; dev_b]);
     jclient_init := fun i _ => if (i =? 0)%nat then 1 else 0 |}.

(* A bus that cannot be enumerated. *)
Definition broken_bus_world : world :=
  {| errno0 := 0; print_devices := 2;
     ow_get_devices := (2, []);
     jclient_init := fun _ _ => 1 |}.

(** * Properties *)

(** ** The monad *)

Lemma bind_ret {A B : Type} (a : A) (f : A -> M B) (p : proc) :
  (mret a ≫= f) p = f a p.
Proof. reflexivity. Qed.

Lemma bind_modify {B : Type} (g : proc -> proc) (f : unit -> M B) (p : proc) :
  (modify g ≫= f) p = f tt (g p).
Proof. reflexivity. Qed.

Lemma bind_gets {A B : Type} (g : proc -> A) (f : A -> M B) (p : proc) :
  (gets g ≫= f) p = f (g p) p.
Proof. reflexivity. Qed.

Lemma bind_emit {B : Type} (e : event) (f : unit -> M B) (p : proc) :
  (emit e ≫= f) p = f tt (add_event e p).
Proof. reflexivity. Qed.

Lemma bind_exit {A B : Type} (n : Z) (f : A -> M B) (p : proc) :
  (exit n ≫= f) p = (Exit n, p).
Proof. reflexivity. Qed.

Lemma bind_assoc {A B C : Type} (m : M A) (f : A -> M B) (g : B -> M C) (p : proc) :
  ((m ≫= f) ≫= g) p = (m ≫= fun a => f a ≫= g) p.
Proof.
  unfold mbind, M_bind. destruct (m p) as [[a | n] p']; reflexivity.
Qed.

(* A computation that returns, and what it leaves in the process. *)
Lemma bind_returns {A B : Type} (m : M A) (f : A -> M B) (p p' : proc) (a : A) :
  m p = (Ret a, p') -> (m ≫= f) p = f a p'.
Proof. intros H. unfold mbind, M_bind. rewrite H. reflexivity. Qed.

Lemma bind_exits {A B : Type} (m : M A) (f : A -> M B) (p p' : proc) (n : Z) :
  m p = (Exit n, p') -> (m ≫= f) p = (Exit n, p').
Proof. intros H. unfold mbind, M_bind. rewrite H. reflexivity. Qed.

Ltac proc_simpl :=
  unfold set_errno, set_debug_level, set_instance_count, set_instances,
    add_event in *;
  cbn [errno debug_level instance_count instances trace] in *.

(** ** Reading traces *)

Lemma threads_created_app (t1 t2 : list event) :
  threads_created (t1 ++ t2) = threads_created t1 ++ threads_created t2.
Proof.
  induction t1 as [| e t1 IH]; [reflexivity |].
  destruct e; simpl; rewrite IH; reflexivity.
Qed.

Lemma joins_app (t1 t2 : list event) :
  joins (t1 ++ t2) = joins t1 ++ joins t2.
Proof.
  induction t1 as [| e t1 IH]; [reflexivity |].
  destruct e; simpl; rewrite IH; reflexivity.
Qed.

Lemma stop_requests_app (t1 t2 : list event) :
  stop_requests (t1 ++ t2) = stop_requests t1 ++ stop_requests t2.
Proof.
  induction t1 as [| e t1 IH]; [reflexivity |].
  destruct e; simpl; rewrite IH; reflexivity.
Qed.

(** ** Loops *)

(* A loop whose body makes one call: the calls, index after index. *)
Lemma for_each_emit (f : nat -> event) (indices : list nat) (p : proc) :
  for_each indices (fun i => emit (f i)) p =
  (Ret tt, {| errno := errno p; debug_level := debug_level p;
              instance_count := instance_count p; instances := instances p;
              trace := trace p ++ (f <$> indices) |}).
Proof.
  revert p. induction indices as [| i rest IH]; intros p; simpl.
  - rewrite app_nil_r. destruct p; reflexivity.
  - rewrite bind_emit, IH. simpl. rewrite <- app_assoc. reflexivity.
Qed.

Lemma bind_pthread_join {B : Type} (i : nat) (f : unit -> M B) (p : proc) :
  (pthread_join i ≫= f) p =
  f tt (add_event (EvPthreadJoin i (instances p !! i ≫= thread)) p).
Proof. reflexivity. Qed.

(* The join loop reads the handles and leaves the entries as they are. *)
Lemma for_each_pthread_join (indices : list nat) (p : proc) :
  for_each indices pthread_join p =
  (Ret tt, {| errno := errno p; debug_level := debug_level p;
              instance_count := instance_count p; instances := instances p;
              trace := trace p ++
                ((fun i => EvPthreadJoin i (instances p !! i ≫= thread)) <$> indices) |}).
Proof.
  revert p. induction indices as [| i rest IH]; intros p; simpl.
  - rewrite app_nil_r. destruct p; reflexivity.
  - rewrite bind_pthread_join, IH.
    simpl. rewrite <- app_assoc. reflexivity.
Qed.

(** The spawn loop of [run_all], invariant and consequences. *)
Section Spawn.
Variable w : world.
Variables b q pr : Z.

Lemma spawn_loop_runs (devices : list ow_usb_device) :
  forall (i : nat) (done : list overwitch_instance) (p : proc),
    length done = i ->
    instances p = done ++ replicate (length devices) uninitialized_instance ->
    spawn_loop w b q pr i devices p =
    (Ret tt, {| errno := errno p; debug_level := debug_level p;
                instance_count := instance_count p;
                instances := done ++ spawned w b q pr i devices;
                trace := trace p ++ spawn_trace w b q pr i devices |}).
Proof.
  induction devices as [| device rest IH]; intros i done p Hlen Hinst.
  - destruct p as [e dl n insts t]. simpl in *. subst insts.
    rewrite !app_nil_r. reflexivity.
  - destruct p as [e dl n insts t]. simpl in Hinst. subst insts.
    assert (Halter : forall f (x : overwitch_instance) tl,
               alter f i (done ++ x :: tl) = done ++ f x :: tl).
    { intros f x tl. rewrite alter_app_r_alt by lia.
      replace (i - length done)%nat with O by lia. reflexivity. }
    simpl spawn_loop. unfold store_jclient, call_jclient_init.
    rewrite bind_modify, bind_assoc, bind_emit, bind_ret.
    simpl spawn_trace. simpl spawned. unfold init_succeeds.
    destruct (jclient_init w i (mk_jclient device b q pr) =? 0)
      eqn:Hinit; simpl negb; cbv iota.
    + unfold pthread_create. rewrite bind_assoc, bind_emit, bind_modify.
      proc_simpl. rewrite !Halter.
      rewrite (IH (S i) (done ++ [ {| thread := Some i;
          inst_jclient := Some (mk_jclient device b q pr) |} ])).
      * proc_simpl. rewrite <- !app_assoc. reflexivity.
      * rewrite length_app. simpl. lia.
      * proc_simpl. rewrite <- app_assoc. reflexivity.
    + rewrite bind_ret. proc_simpl. rewrite !Halter.
      rewrite (IH (S i) (done ++ [ {| thread := None;
          inst_jclient := Some (mk_jclient device b q pr) |} ])).
      * proc_simpl. rewrite <- !app_assoc. reflexivity.
      * rewrite length_app. simpl. lia.
      * proc_simpl. rewrite <- app_assoc. reflexivity.
Qed.

Lemma spawned_lookup (devices : list ow_usb_device) :
  forall (i k : nat),
    spawned w b q pr i devices !! k ≫= thread =
    devices !! k ≫= fun device =>
      if init_succeeds w b q pr (i + k) device then Some (i + k)%nat else None.
Proof.
  induction devices as [| device rest IH]; intros i k; [reflexivity |].
  destruct k as [| k]; simpl.
  - rewrite Nat.add_0_r. reflexivity.
  - rewrite IH. replace (S i + k)%nat with (i + S k)%nat by lia. reflexivity.
Qed.

Lemma length_spawned (devices : list ow_usb_device) (i : nat) :
  length (spawned w b q pr i devices) = length devices.
Proof.
  revert i. induction devices as [| device rest IH]; intros i; simpl;
    [reflexivity | rewrite IH; reflexivity].
Qed.

(* The threads the loop creates: for the devices that initialize. *)
Lemma threads_created_spawn (devices : list ow_usb_device) :
  forall (i k : nat),
    k ∈ threads_created (spawn_trace w b q pr i devices) <->
    exists (j : nat) (device : ow_usb_device),
      k = (i + j)%nat /\ devices !! j = Some device /\
      init_succeeds w b q pr k device = true.
Proof.
  induction devices as [| device rest IH]; intros i k.
  - simpl. split.
    + intros H. inversion H.
    + intros (j & d & _ & H & _). discriminate.
  - simpl spawn_trace. simpl threads_created. rewrite threads_created_app.
    rewrite elem_of_app, IH. split.
    + intros [H | (j & d & -> & Hd & Hok)].
      * destruct (init_succeeds w b q pr i device) eqn:Hok; simpl in H.
        -- apply list_elem_of_singleton in H as ->.
           exists O, device. rewrite Nat.add_0_r. auto.
        -- inversion H.
      * exists (S j), d. replace (i + S j)%nat with (S i + j)%nat by lia. auto.
    + intros (j & d & -> & Hd & Hok). destruct j as [| j].
      * left. simpl in Hd. injection Hd as <-.
        rewrite Nat.add_0_r in *. rewrite Hok. simpl. left.
      * right. exists j, d. simpl in Hd.
        replace (S i + j)%nat with (i + S j)%nat by lia. auto.
Qed.

Lemma joins_spawn (devices : list ow_usb_device) (i : nat) :
  joins (spawn_trace w b q pr i devices) = [].
Proof.
  revert i. induction devices as [| device rest IH]; intros i; [reflexivity |].
  simpl. destruct (init_succeeds w b q pr i device); simpl; apply IH.
Qed.
End Spawn.

(** ** [run_all] *)

(* The whole of a run over an enumeration that succeeds. *)
Lemma run_all_runs (w : world) (b q pr : Z) (devices : list ow_usb_device) (p : proc) :
  ow_get_devices w = (OW_OK, devices) ->
  run_all w b q pr p =
  (Ret OW_OK,
   {| errno := errno p; debug_level := debug_level p;
      instance_count := length devices;
      instances := [];
      trace := trace p ++ EvGetDevices :: spawn_trace w b q pr 0 devices ++
        ((fun i => EvPthreadJoin i (spawned w b q pr 0 devices !! i ≫= thread))
           <$> seq 0 (length devices)) |}).
Proof.
  intros Hdev. unfold run_all. rewrite bind_emit, Hdev.
  rewrite bind_modify. change (negb (OW_OK =? 0)) with false. cbv iota.
  rewrite bind_gets, bind_modify. proc_simpl.
  erewrite bind_returns by (apply (spawn_loop_runs w b q pr devices 0 []); reflexivity).
  rewrite bind_gets. proc_simpl.
  erewrite bind_returns by apply for_each_pthread_join.
  unfold free_instances. rewrite bind_modify. unfold mret, M_ret. proc_simpl.
  rewrite <- !app_assoc. reflexivity.
Qed.

Lemma threads_created_joins (f : nat -> option pthread_t) (indices : list nat) :
  threads_created ((fun i => EvPthreadJoin i (f i)) <$> indices) = [].
Proof. induction indices as [| i rest IH]; [reflexivity | exact IH]. Qed.

Lemma joins_of_joins (f : nat -> option pthread_t) (indices : list nat) :
  joins ((fun i => EvPthreadJoin i (f i)) <$> indices) =
  (fun i => (i, f i)) <$> indices.
Proof.
  induction indices as [| i rest IH]; [reflexivity |].
  simpl. f_equal. exact IH.
Qed.

Lemma jclient_init_spawn (w : world) (b q pr : Z) (devices : list ow_usb_device) :
  forall (i j : nat) (device : ow_usb_device),
    devices !! j = Some device ->
    EvJclientInit (i + j) (mk_jclient device b q pr) ∈ spawn_trace w b q pr i devices.
Proof.
  induction devices as [| d rest IH]; intros i j device Hj; [discriminate |].
  simpl. destruct j as [| j]; simpl in Hj.
  - injection Hj as ->. rewrite Nat.add_0_r. left.
  - right. apply elem_of_app. right.
    replace (i + S j)%nat with (S i + j)%nat by lia. apply IH, Hj.
Qed.

(** C1 fails on the code.  Fleet mode on a bus of two devices, the first of
    which cannot be initialized: the first device is skipped and the thread
    of the second is created, but the join loop then calls [pthread_join]
    for the skipped device, on the handle [malloc] left and nothing wrote.
    From that call on the run is undefined: the source promises neither the
    join of the second thread nor the return of [OW_OK]. *)
Theorem fleet_run_joins_never_written_handle :
  behaviour_of (run first_busy_world []) =
  Undefined [EvGetDevices;
             EvJclientInit 0 (mk_jclient dev_a DEFAULT_BLOCKS DEFAULT_QUALITY
                                         DEFAULT_PRIORITY);
             EvJclientInit 1 (mk_jclient dev_b DEFAULT_BLOCKS DEFAULT_QUALITY
                                         DEFAULT_PRIORITY);
             EvPthreadCreate 1;
             EvPthreadJoin 0 None].
Proof. vm_compute. reflexivity. Qed.



(** ** [signal_handler] *)

(** C7.  A hangup, interrupt or terminate signal, the table holding
    [instance_count] entries: the handler calls [jclient_exit] once on each
    entry, in order, and does nothing else. *)
Theorem signal_handler_stops_every_entry (signo : signal) (p : proc) :
  signo = SIGHUP \/ signo = SIGINT \/ signo = SIGTERM ->
  instance_count p = length (instances p) ->
  exists (p' : proc) (t : list event),
    signal_handler signo p = (Ret tt, p') /\
    trace p' = trace p ++ t /\
    instances p' = instances p /\
    t = EvJclientExit <$> seq 0 (length (instances p)) /\
    stop_requests t = seq 0 (length (instances p)).
Proof.
  intros Hsig Hcount.
  assert (Hrun : signal_handler signo p =
                 (gets instance_count ≫= fun n =>
                    for_each (seq 0 n) (fun i => emit (EvJclientExit i))) p).
  { destruct Hsig as [-> | [-> | ->]]; reflexivity. }
  rewrite Hrun, bind_gets, for_each_emit, Hcount.
  eexists _, _. split; [reflexivity |].
  cbn [trace instances]. repeat split.
  generalize (seq 0 (length (instances p))) as l.
  induction l as [| i l IH]; [reflexivity |].
  simpl. f_equal. exact IH.
Qed.

Lemma signal_handler_stops_every_entry_witness :
  exists (p' : proc) (t : list event),
    signal_handler SIGTERM
      {| errno := 0; debug_level := 0; instance_count := 2;
         instances := spawned first_busy_world 24 2 (-1) 0 [dev_a; dev_b];
         trace := [] |} = (Ret tt, p') /\
    trace p' = [] ++ t /\
    instances p' = spawned first_busy_world 24 2 (-1) 0 [dev_a; dev_b] /\
    t = EvJclientExit <$> seq 0 2 /\
    stop_requests t = seq 0 2.
Proof.
  apply (signal_handler_stops_every_entry SIGTERM
           {| errno := 0; debug_level := 0; instance_count := 2;
              instances := spawned first_busy_world 24 2 (-1) 0 [dev_a; dev_b];
              trace := [] |}).
  - right. right. reflexivity.
  - reflexivity.
Defined.

(** ** [run_single] *)

(* The run when the device cannot be resolved. *)
Lemma run_single_unresolved (w : world) (device_num : Z) (device_name : option string)
    (b q pr : Z) (p : proc) :
  (forall device,
     ow_get_usb_device_from_device_attrs w device_num device_name <> Resolved device) ->
  run_single w device_num device_name b q pr p =
  (Ret OW_GENERIC_ERROR, add_event (EvGetDevice device_num device_name) p).
Proof.
  intros H. unfold run_single. rewrite bind_emit.
  destruct (ow_get_usb_device_from_device_attrs w device_num device_name);
    [exfalso; eapply H; reflexivity | reflexivity | reflexivity].
Qed.

(** C5.  Single-device mode, the device resolved: when the initialization
    of its worker fails, the run returns [OW_GENERIC_ERROR], which is not
    zero, right after the failed call; no thread is created. *)
Theorem run_single_init_failure (w : world) (device_num : Z)
    (device_name : option string) (b q pr : Z)
    (device : ow_usb_device) (p : proc) :
  ow_get_usb_device_from_device_attrs w device_num device_name = Resolved device ->
  jclient_init w 0 (mk_jclient device b q pr) <> 0 ->
  exists (p' : proc) (t : list event),
    run_single w device_num device_name b q pr p = (Ret OW_GENERIC_ERROR, p') /\
    OW_GENERIC_ERROR <> 0 /\
    trace p' = trace p ++ t /\
    t = [EvGetDevice device_num device_name;
         EvJclientInit 0 (mk_jclient device b q pr)] /\
    threads_created t = [].
Proof.
  intros Hres Hfail. unfold run_single. rewrite bind_emit, Hres.
  rewrite !bind_modify. unfold store_jclient, call_jclient_init.
  rewrite bind_modify, !bind_assoc, bind_emit, bind_ret.
  apply Z.eqb_neq in Hfail. rewrite Hfail. simpl negb. cbv iota.
  rewrite bind_ret. unfold free_instances. rewrite bind_modify.
  unfold mret, M_ret. proc_simpl.
  eexists _, _. split; [reflexivity |]. split; [discriminate |].
  cbn [trace]. rewrite <- app_assoc. repeat split.
Qed.

Lemma run_single_init_failure_witness :
  exists (p' : proc) (t : list event),
    run_single first_busy_world 0 None 24 2 (-1) (initial_proc first_busy_world)
      = (Ret OW_GENERIC_ERROR, p') /\
    OW_GENERIC_ERROR <> 0 /\
    trace p' = trace (initial_proc first_busy_world) ++ t /\
    t = [EvGetDevice 0 None; EvJclientInit 0 (mk_jclient dev_a 24 2 (-1))] /\
    threads_created t = [].
Proof.
  apply (run_single_init_failure first_busy_world 0 None 24 2 (-1) dev_a).
  - reflexivity.
  - simpl. lia.
Defined.

(** C8.  Single-device mode, the device given by its number: when the
    number is not the index of an enumerated device (none is, when the
    enumeration is empty), the lookup fails with [DeviceNotFound] and the run
    returns [OW_GENERIC_ERROR], which is not zero, having called nothing but
    the lookup: no worker is initialized and no thread is created. *)
Theorem run_single_index_out_of_range (w : world) (device_num : Z) (b q pr : Z)
    (devices : list ow_usb_device) (p : proc) :
  ow_get_devices w = (OW_OK, devices) ->
  device_num < 0 \/ Z.of_nat (length devices) <= device_num ->
  ow_get_usb_device_from_device_attrs w device_num None = DeviceNotFound /\
  OW_GENERIC_ERROR <> 0 /\
  exists (p' : proc),
    run_single w device_num None b q pr p = (Ret OW_GENERIC_ERROR, p') /\
    trace p' = trace p ++ [EvGetDevice device_num None].
Proof.
  intros Hdev Hrange.
  assert (Hlookup :
    ow_get_usb_device_from_device_attrs w device_num None = DeviceNotFound).
  { unfold ow_get_usb_device_from_device_attrs. rewrite Hdev.
    change (negb (OW_OK =? 0)) with false. cbv iota.
    destruct (device_num <? 0) eqn:Hneg; [reflexivity |].
    apply Z.ltb_ge in Hneg.
    rewrite (lookup_ge_None_2 devices (Z.to_nat device_num)) by lia.
    reflexivity. }
  split; [exact Hlookup |]. split; [discriminate |].
  eexists. split.
  - apply run_single_unresolved. intros device. rewrite Hlookup. discriminate.
  - reflexivity.
Qed.

Lemma run_single_index_out_of_range_witness :
  ow_get_usb_device_from_device_attrs healthy_world 5 None = DeviceNotFound /\
  OW_GENERIC_ERROR <> 0 /\
  exists (p' : proc),
    run_single healthy_world 5 None 24 2 (-1) (initial_proc healthy_world)
      = (Ret OW_GENERIC_ERROR, p') /\
    trace p' = trace (initial_proc healthy_world) ++ [EvGetDevice 5 None].
Proof.
  apply (run_single_index_out_of_range healthy_world 5 24 2 (-1) [dev_a; dev_b]).
  - reflexivity.
  - right. simpl. lia.
Defined.

(** ** The option loop *)

Lemma times_given_nonneg (f : getopt_ret -> bool) (opts : list getopt_ret) :
  0 <= times_given f opts.
Proof.
  induction opts as [| o rest IH]; simpl; [lia |].
  destruct (f o); lia.
Qed.

Lemma call_strtol_runs (optarg : string) (p : proc) :
  call_strtol optarg p =
  (Ret (to_int (strtol_value (strtol optarg)), strtol_end (strtol optarg)),
   set_errno (if strtol_erange (strtol optarg) then ERANGE else errno p) p).
Proof.
  unfold call_strtol. destruct (strtol_erange (strtol optarg)); simpl.
  - reflexivity.
  - destruct p; reflexivity.
Qed.

Lemma options_read_refl (l : locals) (p : proc) : options_read [] l p l p.
Proof.
  unfold options_read. simpl. repeat (split; [lia || reflexivity |]).
  exists []. rewrite app_nil_r. split; [reflexivity | constructor].
Qed.

Lemma options_read_cons (o : getopt_ret) (rest : list getopt_ret)
    (l l1 l2 : locals) (p p1 p2 : proc) :
  options_read [o] l p l1 p1 ->
  options_read rest l1 p1 l2 p2 ->
  options_read (o :: rest) l p l2 p2.
Proof.
  unfold options_read. simpl.
  intros (Hv & Hl & Hd & Hb & Hp & Hn & He & Hdl & Hic & Hin & t1 & Ht1 & Hw1)
         (Hv' & Hl' & Hd' & Hb' & Hp' & Hn' & He' & Hdl' & Hic' & Hin' & t2 & Ht2 & Hw2).
  repeat (split; [lia || congruence |]).
  exists (t1 ++ t2). split.
  - rewrite Ht2, Ht1, app_assoc. reflexivity.
  - apply Forall_app. split; assumption.
Qed.

(* Closes [options_read [o] l p l' p'] once the option has been run, [t]
   being what it wrote to the trace. *)
Ltac options_read_with t :=
  unfold options_read; proc_simpl; simpl;
  repeat (split; [lia || reflexivity |]);
  exists t; split; [rewrite ?app_nil_r; reflexivity | repeat constructor].

(* One option that is not the request for help. *)
Lemma handle_option_runs (o : getopt_ret) (l : locals) (p : proc) :
  is_opt_h o = false ->
  exists (l' : locals) (p' : proc),
    handle_option o l p = (Ret l', p') /\ options_read [o] l p l' p'.
Proof.
  intros Hh.
  destruct o as [s | s | s | s | s | | | |]; try discriminate Hh;
    unfold handle_option;
    try (rewrite (bind_returns _ _ _ _ _ (call_strtol_runs s p));
         cbv beta iota; try rewrite bind_gets).
  - eexists _, _. split; [reflexivity | options_read_with (@nil event)].
  - eexists _, _. split; [reflexivity | options_read_with (@nil event)].
  - destruct (rejected _ s _ _ 0 4); [rewrite bind_emit |];
      eexists _, _; (split; [reflexivity |]).
    + options_read_with [EvStderr (MsgQuality DEFAULT_QUALITY)].
    + options_read_with (@nil event).
  - destruct (rejected _ s _ _ 2 32); [rewrite bind_emit |];
      eexists _, _; (split; [reflexivity |]).
    + options_read_with [EvStderr (MsgBlocks DEFAULT_BLOCKS)].
    + options_read_with (@nil event).
  - destruct (rejected _ s _ _ 0 99); [rewrite bind_emit |];
      eexists _, _; (split; [reflexivity |]).
    + options_read_with [EvStderr MsgPriority].
    + options_read_with (@nil event).
  - eexists _, _. split; [reflexivity | options_read_with (@nil event)].
  - eexists _, _. split; [reflexivity | options_read_with (@nil event)].
  - eexists _, _. split; [reflexivity | options_read_with (@nil event)].
Qed.

(* The whole loop, when help is not asked for. *)
Lemma getopt_loop_runs (opts : list getopt_ret) :
  forall (l : locals) (p : proc),
    times_given is_opt_h opts = 0 ->
    exists (l' : locals) (p' : proc),
      getopt_loop opts l p = (Ret l', p') /\ options_read opts l p l' p'.
Proof.
  induction opts as [| o rest IH]; intros l p Hh.
  - exists l, p. split; [reflexivity | apply options_read_refl].
  - simpl in Hh. pose proof (times_given_nonneg is_opt_h rest) as Hrest.
    destruct (is_opt_h o) eqn:Ho; [lia |].
    destruct (handle_option_runs o l p Ho) as (l1 & p1 & Hrun1 & Hread1).
    destruct (IH l1 p1 ltac:(lia)) as (l2 & p2 & Hrun2 & Hread2).
    exists l2, p2. split.
    + simpl. rewrite (bind_returns _ _ _ _ _ Hrun1). exact Hrun2.
    + eapply options_read_cons; eassumption.
Qed.

(** ** After the options *)

Lemma main_after_options (w : world) (opts : list getopt_ret) :
  times_given is_opt_h opts = 0 ->
  exists (l : locals) (p : proc),
    options_read opts initial_locals (initial_proc w) l p /\
    main w opts (initial_proc w) = after_options w l p.
Proof.
  intros Hh.
  destruct (getopt_loop_runs opts initial_locals (initial_proc w) Hh)
    as (l & p & Hrun & Hread).
  exists l, p. split; [exact Hread |].
  unfold main. apply bind_returns, Hrun.
Qed.

Lemma warning_touches_no_device (t : list event) :
  Forall (fun e => is_warning e = true) t ->
  Forall (fun e => touches_device e = false) t.
Proof.
  intros H. eapply Forall_impl; [exact H |].
  intros [[] | | | | | | | | |]; simpl; congruence.
Qed.

Lemma warning_starts_no_worker (t : list event) :
  Forall (fun e => is_warning e = true) t ->
  Forall (fun e => starts_worker e = false) t.
Proof.
  intros H. eapply Forall_impl; [exact H |].
  intros [[] | | | | | | | | |]; simpl; congruence.
Qed.

(* With no usage error, [main] goes on to the dispatch; the verbosity is
   all that has changed. *)
Lemma after_options_dispatch (w : world) (l : locals) (p : proc) :
  errflg l <= 0 ->
  after_options w l p =
  dispatch w l (if negb (vflg l =? 0) then set_debug_level (vflg l) p else p).
Proof.
  intros Herr. unfold after_options, when.
  destruct (Z.gtb_spec (errflg l) 0) as [Herr' | _]; [lia |].
  rewrite bind_ret. destruct (negb (vflg l =? 0)); reflexivity.
Qed.

Lemma trace_verbosity (c : bool) (v : Z) (p : proc) :
  trace (if c then set_debug_level v p else p) = trace p.
Proof. destruct c; reflexivity. Qed.

(* The ways out of [main] before any device is looked at: a usage error, a
   repeated block count or priority, more than one device selection. *)
Lemma after_options_rejects (w : world) (l : locals) (p : proc) :
  0 < errflg l \/
  (lflg l = 0 /\ (1 < bflg l \/ 1 < pflg l \/ 1 < nflg l + dflg l)) ->
  exists (e : event) (p' : proc),
    after_options w l p = (Exit EXIT_FAILURE, p') /\
    trace p' = trace p ++ [e] /\ touches_device e = false.
Proof.
  intros H.
  destruct (Z.lt_ge_cases 0 (errflg l)) as [Herr | Herr].
  { exists EvPrintHelp. eexists. unfold after_options, when.
    destruct (Z.gtb_spec (errflg l) 0); [| lia].
    split; [reflexivity | split; reflexivity]. }
  destruct H as [H | [Hl H]]; [lia |].
  rewrite after_options_dispatch by exact Herr.
  rewrite <- (trace_verbosity (negb (vflg l =? 0)) (vflg l) p).
  generalize (if negb (vflg l =? 0) then set_debug_level (vflg l) p else p).
  intros p1. unfold dispatch, when. rewrite Hl.
  change (negb (0 =? 0)) with false. cbv iota. rewrite bind_ret.
  destruct (Z.gtb_spec (bflg l) 1) as [Hb | Hb].
  { exists (EvStderr MsgUndeterminedBlocks). eexists.
    split; [reflexivity | split; reflexivity]. }
  destruct (Z.gtb_spec (pflg l) 1) as [Hp | Hp].
  { exists (EvStderr MsgUndeterminedPriority). eexists.
    split; [reflexivity | split; reflexivity]. }
  destruct (Z.eqb_spec (nflg l + dflg l) 0) as [H0 | H0]; [lia |].
  destruct (Z.eqb_spec (nflg l + dflg l) 1) as [H1 | H1]; [lia |].
  exists (EvStderr MsgDeviceNotProvided). eexists.
  split; [reflexivity | split; reflexivity].
Qed.

(* The list-devices branch. *)
Lemma after_options_lists (w : world) (l : locals) (p : proc) :
  errflg l <= 0 ->
  lflg l <> 0 ->
  exists (p' : proc),
    after_options w l p =
      (Exit (if print_devices w =? 0 then EXIT_SUCCESS else EXIT_FAILURE), p') /\
    trace p' = trace p ++ EvPrintDevices ::
      (if print_devices w =? 0 then []
       else [EvStderr (MsgUsbError (print_devices w))]).
Proof.
  intros Herr Hl.
  rewrite after_options_dispatch by exact Herr.
  rewrite <- (trace_verbosity (negb (vflg l =? 0)) (vflg l) p).
  generalize (if negb (vflg l =? 0) then set_debug_level (vflg l) p else p).
  intros p1. unfold dispatch, when.
  apply Z.eqb_neq in Hl. rewrite Hl. simpl negb. cbv iota.
  unfold call_print_devices. rewrite !bind_assoc, bind_emit, bind_ret.
  destruct (print_devices w =? 0) eqn:Hpd; eexists; (split; [reflexivity |]);
    proc_simpl; rewrite <- ?app_assoc; reflexivity.
Qed.

(* Fleet mode and single-device mode, as [main] enters them. *)
Lemma dispatch_fleet (w : world) (l : locals) (p : proc) :
  lflg l = 0 -> bflg l <= 1 -> pflg l <= 1 -> nflg l + dflg l = 0 ->
  dispatch w l p =
  run_all w (blocks_per_transfer l) (quality l) (priority l) p.
Proof.
  intros Hl Hb Hp Hnd. unfold dispatch, when. rewrite Hl, Hnd.
  destruct (Z.gtb_spec (bflg l) 1); [lia |].
  destruct (Z.gtb_spec (pflg l) 1); [lia |].
  reflexivity.
Qed.

Lemma dispatch_single (w : world) (l : locals) (p : proc) :
  lflg l = 0 -> bflg l <= 1 -> pflg l <= 1 -> nflg l + dflg l = 1 ->
  dispatch w l p =
  run_single w (device_num l) (device_name l)
             (blocks_per_transfer l) (quality l) (priority l) p.
Proof.
  intros Hl Hb Hp Hnd. unfold dispatch, when. rewrite Hl, Hnd.
  destruct (Z.gtb_spec (bflg l) 1); [lia |].
  destruct (Z.gtb_spec (pflg l) 1); [lia |].
  reflexivity.
Qed.

(** ** Whole runs *)

(* A run that asks for no help: the option loop leaves warnings, and the
   rest of [main] goes on from there. *)
Lemma run_after_options (w : world) (opts : list getopt_ret) :
  times_given is_opt_h opts = 0 ->
  exists (l : locals) (p : proc),
    options_read opts initial_locals (initial_proc w) l p /\
    run w opts =
      (exit_status (after_options w l p).1, trace (after_options w l p).2).
Proof.
  intros Hh.
  destruct (main_after_options w opts Hh) as (l & p & Hread & Hmain).
  exists l, p. split; [exact Hread |].
  unfold run. rewrite Hmain. destruct (after_options w l p); reflexivity.
Qed.

(* Runs that end in a validation error. *)
Lemma run_rejects (w : world) (opts : list getopt_ret) :
  times_given is_opt_h opts = 0 ->
  0 < times_given is_opt_unknown opts \/
  (times_given is_opt_l opts = 0 /\
   (1 < times_given is_opt_b opts \/ 1 < times_given is_opt_p opts \/
    1 < times_given is_opt_n opts + times_given is_opt_d opts)) ->
  (run w opts).1 = EXIT_FAILURE /\
  Forall (fun e => touches_device e = false) (run w opts).2.
Proof.
  intros Hh Hcase.
  destruct (run_after_options w opts Hh) as (l & p & Hread & ->).
  destruct Hread as (_ & Hl & Hd & Hb & Hp & Hn & He & _ & _ & _ & t & Ht & Hw).
  simpl in Hl, Hd, Hb, Hp, Hn, He, Ht.
  destruct (after_options_rejects w l p) as (e & p' & -> & Htrace & Hquiet).
  { rewrite He, Hl, Hb, Hp, Hn, Hd. exact Hcase. }
  simpl. split; [reflexivity |].
  rewrite Htrace, Ht. apply Forall_app. split.
  - apply warning_touches_no_device, Hw.
  - repeat constructor. exact Hquiet.
Qed.

(** C3, amended.  A command line without the help and list-devices flags
    in which the block count or the priority is given more than once: the
    process exits with [EXIT_FAILURE], which is not zero, and has made no
    call that reaches the bus or a device; in particular no worker is
    initialized and no thread is created. *)
Theorem repeated_blocks_or_priority_rejected (w : world) (opts : list getopt_ret) :
  times_given is_opt_h opts = 0 ->
  times_given is_opt_l opts = 0 ->
  1 < times_given is_opt_b opts \/ 1 < times_given is_opt_p opts ->
  (run w opts).1 = EXIT_FAILURE /\
  (run w opts).1 <> 0 /\
  Forall (fun e => touches_device e = false) (run w opts).2.
Proof.
  intros Hh Hl Hrep.
  destruct (run_rejects w opts Hh) as [Hstatus Hquiet].
  { right. split; [exact Hl |]. destruct Hrep; auto. }
  rewrite Hstatus. repeat split; [discriminate | exact Hquiet].
Qed.

Lemma repeated_blocks_or_priority_rejected_witness :
  (run healthy_world [opt_b "3"; opt_q "1"; opt_b "4"]).1 = EXIT_FAILURE /\
  (run healthy_world [opt_b "3"; opt_q "1"; opt_b "4"]).1 <> 0 /\
  Forall (fun e => touches_device e = false)
         (run healthy_world [opt_b "3"; opt_q "1"; opt_b "4"]).2.
Proof.
  apply (repeated_blocks_or_priority_rejected healthy_world
           [opt_b "3"; opt_q "1"; opt_b "4"]).
  - reflexivity.
  - reflexivity.
  - left. simpl. lia.
Defined.

(** C3 as stated fails three times.  The quality given twice is not an
    error: the last value is used and both workers of a healthy two-device
    bus are started, with exit status 0.  The block count given twice next
    to the list-devices flag is not an error either: the devices are listed,
    with exit status 0.  Nor is it next to the help flag: the usage is
    printed, with exit status 0. *)
Lemma repeated_option_not_always_rejected :
  (1 < times_given is_opt_q [opt_q "1"; opt_q "3"] /\
   (run healthy_world [opt_q "1"; opt_q "3"]).1 = 0 /\
   threads_created (run healthy_world [opt_q "1"; opt_q "3"]).2 = [0; 1]%nat) /\
  (1 < times_given is_opt_b [opt_b "3"; opt_b "4"; opt_l] /\
   run healthy_world [opt_b "3"; opt_b "4"; opt_l] = (0, [EvPrintDevices]) /\
   touches_device EvPrintDevices = true) /\
  (1 < times_given is_opt_b [opt_b "3"; opt_b "4"; opt_h] /\
   run healthy_world [opt_b "3"; opt_b "4"; opt_h] = (0, [EvPrintHelp])).
Proof.
  repeat split; try (simpl; lia); vm_compute; reflexivity.
Qed.

(** C4, amended.  A command line without the help and list-devices flags
    that gives a device both by number and by name: the process exits with
    [EXIT_FAILURE], which is not zero, and has made no call that reaches the
    bus or a device; in particular no worker is initialized and no thread is
    created. *)
Theorem index_and_name_rejected (w : world) (opts : list getopt_ret) :
  times_given is_opt_h opts = 0 ->
  times_given is_opt_l opts = 0 ->
  0 < times_given is_opt_n opts ->
  0 < times_given is_opt_d opts ->
  (run w opts).1 = EXIT_FAILURE /\
  (run w opts).1 <> 0 /\
  Forall (fun e => touches_device e = false) (run w opts).2.
Proof.
  intros Hh Hl Hn Hd.
  destruct (run_rejects w opts Hh) as [Hstatus Hquiet].
  { right. split; [exact Hl |]. right. right. lia. }
  rewrite Hstatus. repeat split; [discriminate | exact Hquiet].
Qed.

Lemma index_and_name_rejected_witness :
  (run healthy_world [opt_n "1"; opt_d "Digitakt"]).1 = EXIT_FAILURE /\
  (run healthy_world [opt_n "1"; opt_d "Digitakt"]).1 <> 0 /\
  Forall (fun e => touches_device e = false)
         (run healthy_world [opt_n "1"; opt_d "Digitakt"]).2.
Proof.
  apply (index_and_name_rejected healthy_world [opt_n "1"; opt_d "Digitakt"]).
  - reflexivity.
  - reflexivity.
  - simpl. lia.
  - simpl. lia.
Defined.

(** C4 as stated fails next to the list-devices flag: the bus is enumerated
    and the devices are listed, with exit status 0.  It fails next to the
    help flag too: the usage is printed, with exit status 0. *)
Lemma index_and_name_not_always_rejected :
  (0 < times_given is_opt_n [opt_n "0"; opt_d "Digitakt"; opt_l] /\
   0 < times_given is_opt_d [opt_n "0"; opt_d "Digitakt"; opt_l] /\
   run healthy_world [opt_n "0"; opt_d "Digitakt"; opt_l] = (0, [EvPrintDevices]) /\
   touches_device EvPrintDevices = true) /\
  (0 < times_given is_opt_n [opt_n "0"; opt_d "Digitakt"; opt_h] /\
   0 < times_given is_opt_d [opt_n "0"; opt_d "Digitakt"; opt_h] /\
   run healthy_world [opt_n "0"; opt_d "Digitakt"; opt_h] = (0, [EvPrintHelp])).
Proof.
  repeat split; try (simpl; lia); vm_compute; reflexivity.
Qed.

(* Runs that list the devices. *)
Lemma run_lists (w : world) (opts : list getopt_ret) :
  0 < times_given is_opt_l opts ->
  times_given is_opt_h opts = 0 ->
  times_given is_opt_unknown opts = 0 ->
  exists (t : list event),
    Forall (fun e => is_warning e = true) t /\
    run w opts =
      (if print_devices w =? 0 then EXIT_SUCCESS else EXIT_FAILURE,
       t ++ EvPrintDevices ::
         (if print_devices w =? 0 then []
          else [EvStderr (MsgUsbError (print_devices w))])).
Proof.
  intros Hl Hh He.
  destruct (run_after_options w opts Hh) as (l & p & Hread & ->).
  destruct Hread as (_ & Hl' & _ & _ & _ & _ & He' & _ & _ & _ & t & Ht & Hw).
  simpl in Hl', He', Ht.
  destruct (after_options_lists w l p) as (p' & -> & Htrace); [lia | lia |].
  exists t. split; [exact Hw |]. simpl. rewrite Htrace, Ht. reflexivity.
Qed.

(** C6, amended.  An invocation with the list-devices flag, without the
    help flag and without an unrecognised option: [print_devices] is called;
    when it succeeds the process exits with status 0, when it fails the error
    is written to [stderr] and the process exits with [EXIT_FAILURE], which
    is not zero; either way no worker is initialized and no thread is
    created. *)
Theorem list_devices_short_circuits (w : world) (opts : list getopt_ret) :
  0 < times_given is_opt_l opts ->
  times_given is_opt_h opts = 0 ->
  times_given is_opt_unknown opts = 0 ->
  EvPrintDevices ∈ (run w opts).2 /\
  Forall (fun e => starts_worker e = false) (run w opts).2 /\
  (print_devices w = OW_OK -> (run w opts).1 = 0) /\
  (print_devices w <> OW_OK ->
   (run w opts).1 = EXIT_FAILURE /\ (run w opts).1 <> 0 /\
   EvStderr (MsgUsbError (print_devices w)) ∈ (run w opts).2).
Proof.
  intros Hl Hh He.
  destruct (run_lists w opts Hl Hh He) as (t & Hw & ->). simpl.
  split; [| split; [| split]].
  - apply elem_of_app. right. left.
  - apply Forall_app. split; [apply warning_starts_no_worker, Hw |].
    destruct (print_devices w =? 0); repeat constructor.
  - intros Hok. rewrite Hok. reflexivity.
  - intros Hfail. unfold OW_OK in Hfail. apply Z.eqb_neq in Hfail. rewrite Hfail.
    split; [reflexivity |]. split; [discriminate |].
    apply elem_of_app. right. right. left.
Qed.

Lemma list_devices_short_circuits_witness :
  EvPrintDevices ∈ (run broken_bus_world [opt_v; opt_l]).2 /\
  Forall (fun e => starts_worker e = false) (run broken_bus_world [opt_v; opt_l]).2 /\
  (print_devices broken_bus_world = OW_OK ->
   (run broken_bus_world [opt_v; opt_l]).1 = 0) /\
  (print_devices broken_bus_world <> OW_OK ->
   (run broken_bus_world [opt_v; opt_l]).1 = EXIT_FAILURE /\
   (run broken_bus_world [opt_v; opt_l]).1 <> 0 /\
   EvStderr (MsgUsbError (print_devices broken_bus_world))
     ∈ (run broken_bus_world [opt_v; opt_l]).2).
Proof.
  apply (list_devices_short_circuits broken_bus_world [opt_v; opt_l]).
  - simpl. lia.
  - reflexivity.
  - reflexivity.
Defined.

(** C6 as stated fails next to an unrecognised option: on a healthy bus the
    usage is printed instead of the devices, and the exit status is 1.  It
    fails next to the help flag too: the usage is printed instead of the
    devices, and on a bus that cannot be enumerated the exit status is 0. *)
Lemma list_devices_not_always_listed :
  (0 < times_given is_opt_l [opt_l; opt_unknown] /\
   print_devices healthy_world = OW_OK /\
   run healthy_world [opt_l; opt_unknown] = (1, [EvPrintHelp])) /\
  (0 < times_given is_opt_l [opt_l; opt_h] /\
   print_devices broken_bus_world <> OW_OK /\
   run broken_bus_world [opt_l; opt_h] = (0, [EvPrintHelp])).
Proof.
  repeat split; try (simpl; lia); try discriminate; vm_compute; reflexivity.
Qed.

(** C10, amended.  A command line with the list-devices flag and a repeated
    block count or priority, without the help flag and without an
    unrecognised option, on a bus that [print_devices] can list: after the
    warnings of the option loop the devices are listed and the process exits
    with status 0; the checks for repeated options are not reached, and
    neither of their messages is written. *)
Theorem list_devices_precedes_repeat_checks (w : world) (opts : list getopt_ret) :
  0 < times_given is_opt_l opts ->
  1 < times_given is_opt_b opts \/ 1 < times_given is_opt_p opts ->
  times_given is_opt_h opts = 0 ->
  times_given is_opt_unknown opts = 0 ->
  print_devices w = OW_OK ->
  (exists (t : list event),
     Forall (fun e => is_warning e = true) t /\
     run w opts = (0, t ++ [EvPrintDevices])) /\
  (EvStderr MsgUndeterminedBlocks ∉ (run w opts).2) /\
  (EvStderr MsgUndeterminedPriority ∉ (run w opts).2).
Proof.
  intros Hl _ Hh He Hok.
  destruct (run_lists w opts Hl Hh He) as (t & Hw & Hrun).
  rewrite Hok in Hrun. change (OW_OK =? 0) with true in Hrun. cbv iota in Hrun.
  rewrite Hrun. simpl.
  assert (Hnot : forall m, is_warning (EvStderr m) = false ->
                           EvStderr m ∉ t ++ [EvPrintDevices]).
  { intros m Hm Hin. apply elem_of_app in Hin as [Hin | Hin].
    - rewrite Forall_forall in Hw. apply Hw in Hin. congruence.
    - apply list_elem_of_singleton in Hin. discriminate. }
  split; [| split].
  - exists t. split; [exact Hw | reflexivity].
  - apply Hnot. reflexivity.
  - apply Hnot. reflexivity.
Qed.

Lemma list_devices_precedes_repeat_checks_witness :
  (exists (t : list event),
     Forall (fun e => is_warning e = true) t /\
     run healthy_world [opt_b "3"; opt_l; opt_b "40"] = (0, t ++ [EvPrintDevices])) /\
  (EvStderr MsgUndeterminedBlocks ∉ (run healthy_world [opt_b "3"; opt_l; opt_b "40"]).2) /\
  (EvStderr MsgUndeterminedPriority ∉ (run healthy_world [opt_b "3"; opt_l; opt_b "40"]).2).
Proof.
  apply (list_devices_precedes_repeat_checks healthy_world
           [opt_b "3"; opt_l; opt_b "40"]).
  - simpl. lia.
  - left. simpl. lia.
  - reflexivity.
  - reflexivity.
  - reflexivity.
Defined.

(** C10 as stated fails next to an unrecognised option: on a healthy bus the
    usage is printed instead of the devices, and the exit status is 1.  Next
    to the help flag the usage is printed instead of the devices as well. *)
Lemma list_devices_with_repeat_not_always_listed :
  (0 < times_given is_opt_l [opt_l; opt_b "3"; opt_b "4"; opt_unknown] /\
   1 < times_given is_opt_b [opt_l; opt_b "3"; opt_b "4"; opt_unknown] /\
   print_devices healthy_world = OW_OK /\
   run healthy_world [opt_l; opt_b "3"; opt_b "4"; opt_unknown] = (1, [EvPrintHelp])) /\
  (0 < times_given is_opt_l [opt_l; opt_p "3"; opt_p "4"; opt_h] /\
   1 < times_given is_opt_p [opt_l; opt_p "3"; opt_p "4"; opt_h] /\
   run healthy_world [opt_l; opt_p "3"; opt_p "4"; opt_h] = (0, [EvPrintHelp])).
Proof.
  repeat split; try (simpl; lia); vm_compute; reflexivity.
Qed.

(* The help flag ends the process inside the option loop, whatever else the
   command line holds. *)
Lemma getopt_loop_help (opts : list getopt_ret) :
  forall (l : locals) (p : proc),
    0 < times_given is_opt_h opts ->
    exists (p' : proc) (t : list event),
      getopt_loop opts l p = (Exit EXIT_SUCCESS, p') /\
      trace p' = trace p ++ t ++ [EvPrintHelp] /\
      Forall (fun e => is_warning e = true) t.
Proof.
  induction opts as [| o rest IH]; intros l p Hh; [simpl in Hh; lia |].
  destruct (is_opt_h o) eqn:Ho.
  - destruct o; try discriminate Ho.
    eexists _, []. split; [reflexivity |]. split; [reflexivity | constructor].
  - simpl in Hh. rewrite Ho in Hh.
    destruct (handle_option_runs o l p Ho) as (l1 & p1 & Hrun1 & Hread1).
    destruct (IH l1 p1 ltac:(lia)) as (p2 & t2 & Hrun2 & Ht2 & Hw2).
    destruct Hread1 as (_ & _ & _ & _ & _ & _ & _ & _ & _ & _ & t1 & Ht1 & Hw1).
    exists p2, (t1 ++ t2). split; [| split].
    + simpl. rewrite (bind_returns _ _ _ _ _ Hrun1). exact Hrun2.
    + rewrite Ht2, Ht1, <- !app_assoc. reflexivity.
    + apply Forall_app. split; assumption.
Qed.

Lemma run_help (w : world) (opts : list getopt_ret) :
  0 < times_given is_opt_h opts ->
  exists (t : list event),
    Forall (fun e => is_warning e = true) t /\
    run w opts = (EXIT_SUCCESS, t ++ [EvPrintHelp]).
Proof.
  intros Hh.
  destruct (getopt_loop_help opts initial_locals (initial_proc w) Hh)
    as (p' & t & Hrun & Ht & Hw).
  exists t. split; [exact Hw |].
  unfold run, main. rewrite (bind_exits _ _ _ _ _ Hrun). simpl.
  rewrite Ht. reflexivity.
Qed.

(** ** The scenarios of the specification, run *)

(* A: no selection, two devices, both initialize. *)
Example scenario_fleet :
  (run healthy_world []).1 = 0 /\
  threads_created (run healthy_world []).2 = [0; 1]%nat /\
  joins (run healthy_world []).2 = [(0, Some 0); (1, Some 1)]%nat.
Proof. repeat split. Qed.

(* B: device number 5, two devices. *)
Example scenario_device_not_found :
  run healthy_world [opt_n "5"] = (OW_GENERIC_ERROR, [EvGetDevice 5 None]).
Proof. reflexivity. Qed.

(* C: quality 9. *)
Example scenario_quality_coerced :
  stderr_messages (run healthy_world [opt_q "9"]).2 = [MsgQuality 2] /\
  (run healthy_world [opt_q "9"]).2 = EvStderr (MsgQuality 2) :: (run healthy_world []).2.
Proof. split; reflexivity. Qed.

(* D: the list of devices. *)
Example scenario_list_devices :
  run healthy_world [opt_l] = (0, [EvPrintDevices]).
Proof. reflexivity. Qed.

(* A fleet whose first device is busy: one thread, and the join loop
   passes the never-written handle of the first entry. *)
Example scenario_first_busy :
  threads_created (run first_busy_world []).2 = [1]%nat /\
  joins (run first_busy_world []).2 = [(0, None); (1, Some 1)]%nat.
Proof. repeat split. Qed.

(** ** Numeric options *)

Lemma int_bounds : INT_MIN = -2147483648 /\ INT_MAX = 2147483647.
Proof. split; reflexivity. Qed.

Lemma long_bounds :
  LONG_MIN = -9223372036854775808 /\ LONG_MAX = 9223372036854775807.
Proof. split; reflexivity. Qed.

(* A [long] in the range of [int] converts to itself. *)
Lemma to_int_in_range (v : Z) : INT_MIN <= v <= INT_MAX -> to_int v = v.
Proof.
  destruct int_bounds as [-> ->]. intros Hv. unfold to_int.
  change (2 ^ (INT_BITS - 1)) with 2147483648.
  change (2 ^ INT_BITS) with 4294967296.
  rewrite Z.mod_small by lia. lia.
Qed.

(* A number in the range of [int] is what [strtol] returns, [errno] left
   alone. *)
Lemma strtol_in_int_range (s : string) :
  INT_MIN <= (parse_decimal s).1 <= INT_MAX ->
  strtol s = {| strtol_value := (parse_decimal s).1;
                strtol_end := (parse_decimal s).2;
                strtol_erange := false |}.
Proof.
  destruct int_bounds as [-> ->]. unfold strtol.
  destruct (parse_decimal s) as [v k]. simpl. intros Hv.
  destruct long_bounds as [-> ->].
  destruct (Z.gtb_spec v 9223372036854775807); [lia |].
  destruct (Z.ltb_spec v (-9223372036854775808)); [lia | reflexivity].
Qed.

(* Beyond the range of [long], [strtol] sets [errno]. *)
Lemma strtol_beyond_long (s : string) :
  (parse_decimal s).1 < LONG_MIN \/ LONG_MAX < (parse_decimal s).1 ->
  strtol_erange (strtol s) = true.
Proof.
  unfold strtol. destruct (parse_decimal s) as [v k]. simpl.
  destruct long_bounds as [-> ->]. intros Hv.
  destruct (Z.gtb_spec v 9223372036854775807); [reflexivity |].
  destruct (Z.ltb_spec v (-9223372036854775808)); [reflexivity | lia].
Qed.

(** The test of the three numeric options, for a value in the range of
    [int]: the value is turned down exactly when [errno] is set, no digit
    was read, something follows the digits, or the number is outside
    [lo..hi]. *)
Lemma rejected_in_int_range (e : Z) (s : string) (lo hi : Z) :
  INT_MIN <= (parse_decimal s).1 <= INT_MAX ->
  rejected e s (strtol_end (strtol s)) (to_int (strtol_value (strtol s))) lo hi = true <->
  e <> 0 \/ (parse_decimal s).2 = O \/ not_at_end s (parse_decimal s).2 = true \/
  (parse_decimal s).1 < lo \/ hi < (parse_decimal s).1.
Proof.
  intros Hv. rewrite (strtol_in_int_range s Hv). simpl.
  rewrite (to_int_in_range _ Hv). unfold rejected.
  rewrite !orb_true_iff, negb_true_iff, Z.eqb_neq, Nat.eqb_eq, Z.ltb_lt, Z.gtb_ltb,
    Z.ltb_lt.
  tauto.
Qed.

(* What the loop does with a resampling quality in the range of [int] that
   is malformed or outside [0..4]: the warning, and the default. *)
Lemma quality_coerced (s : string) (l : locals) (p : proc) :
  INT_MIN <= (parse_decimal s).1 <= INT_MAX ->
  (parse_decimal s).2 = O \/ not_at_end s (parse_decimal s).2 = true \/
  (parse_decimal s).1 < 0 \/ 4 < (parse_decimal s).1 ->
  handle_option (opt_q s) l p =
  (Ret (set_quality DEFAULT_QUALITY l),
   add_event (EvStderr (MsgQuality DEFAULT_QUALITY)) p).
Proof.
  intros Hv Hbad. unfold handle_option.
  rewrite (bind_returns _ _ _ _ _ (call_strtol_runs s p)). cbv beta iota.
  rewrite bind_gets.
  assert (Hrej : rejected (errno (set_errno
      (if strtol_erange (strtol s) then ERANGE else errno p) p)) s
      (strtol_end (strtol s)) (to_int (strtol_value (strtol s))) 0 4 = true)
    by (apply rejected_in_int_range; tauto).
  rewrite Hrej, bind_emit. rewrite (strtol_in_int_range s Hv).
  destruct p; reflexivity.
Qed.

(* The same for a block count, outside [2..32]. *)
Lemma blocks_coerced (s : string) (l : locals) (p : proc) :
  INT_MIN <= (parse_decimal s).1 <= INT_MAX ->
  (parse_decimal s).2 = O \/ not_at_end s (parse_decimal s).2 = true \/
  (parse_decimal s).1 < 2 \/ 32 < (parse_decimal s).1 ->
  handle_option (opt_b s) l p =
  (Ret (set_blocks DEFAULT_BLOCKS l),
   add_event (EvStderr (MsgBlocks DEFAULT_BLOCKS)) p).
Proof.
  intros Hv Hbad. unfold handle_option.
  rewrite (bind_returns _ _ _ _ _ (call_strtol_runs s p)). cbv beta iota.
  rewrite bind_gets.
  assert (Hrej : rejected (errno (set_errno
      (if strtol_erange (strtol s) then ERANGE else errno p) p)) s
      (strtol_end (strtol s)) (to_int (strtol_value (strtol s))) 2 32 = true)
    by (apply rejected_in_int_range; tauto).
  rewrite Hrej, bind_emit. rewrite (strtol_in_int_range s Hv).
  destruct p; reflexivity.
Qed.

(* The same for a priority, outside [0..99]. *)
Lemma priority_coerced (s : string) (l : locals) (p : proc) :
  INT_MIN <= (parse_decimal s).1 <= INT_MAX ->
  (parse_decimal s).2 = O \/ not_at_end s (parse_decimal s).2 = true \/
  (parse_decimal s).1 < 0 \/ 99 < (parse_decimal s).1 ->
  handle_option (opt_p s) l p =
  (Ret (set_priority DEFAULT_PRIORITY l), add_event (EvStderr MsgPriority) p).
Proof.
  intros Hv Hbad. unfold handle_option.
  rewrite (bind_returns _ _ _ _ _ (call_strtol_runs s p)). cbv beta iota.
  rewrite bind_gets.
  assert (Hrej : rejected (errno (set_errno
      (if strtol_erange (strtol s) then ERANGE else errno p) p)) s
      (strtol_end (strtol s)) (to_int (strtol_value (strtol s))) 0 99 = true)
    by (apply rejected_in_int_range; tauto).
  rewrite Hrej, bind_emit. rewrite (strtol_in_int_range s Hv).
  destruct p; reflexivity.
Qed.

(** C2 fails on the code.  The value of [-q 4294967297] is a well-formed
    integer outside [0..4].  [strtol] returns it as a [long]; the conversion
    to [int] that precedes the range test leaves 1, which passes: no warning
    is written and both workers of a healthy two-device bus are initialized
    with quality 1, not with the default. *)
Theorem quality_beyond_int_accepted :
  parse_decimal "4294967297" = (4294967297, 10%nat) /\
  not_at_end "4294967297" 10 = false /\
  run healthy_world [opt_q "4294967297"] =
    (0, [EvGetDevices;
         EvJclientInit 0 (mk_jclient dev_a DEFAULT_BLOCKS 1 DEFAULT_PRIORITY);
         EvPthreadCreate 0;
         EvJclientInit 1 (mk_jclient dev_b DEFAULT_BLOCKS 1 DEFAULT_PRIORITY);
         EvPthreadCreate 1;
         EvPthreadJoin 0 (Some 0%nat);
         EvPthreadJoin 1 (Some 1%nat)]) /\
  stderr_messages (run healthy_world [opt_q "4294967297"]).2 = [].
Proof. repeat split; vm_compute; reflexivity. Qed.

(** * Further properties of the launcher *)

(** ** [signal_handler], the other signals *)

Lemma status_reports_fmap (indices : list nat) :
  status_reports (EvReportStatus <$> indices) = indices.
Proof.
  induction indices as [| i rest IH]; [reflexivity |]. simpl. f_equal. exact IH.
Qed.

Lemma stop_requests_reports (indices : list nat) :
  stop_requests (EvReportStatus <$> indices) = [].
Proof. induction indices as [| i rest IH]; [reflexivity | exact IH]. Qed.

(** X1.  The status-request signal, the table holding [instance_count]
    entries: the handler asks every entry for a status report, once and in
    order; it calls [jclient_exit] on none, and leaves the table as it
    is. *)
Theorem signal_handler_reports_every_entry (p : proc) :
  instance_count p = length (instances p) ->
  exists (p' : proc) (t : list event),
    signal_handler SIGUSR1 p = (Ret tt, p') /\
    trace p' = trace p ++ t /\
    instances p' = instances p /\
    instance_count p' = instance_count p /\
    status_reports t = seq 0 (length (instances p)) /\
    stop_requests t = [] /\
    length t = length (instances p).
Proof.
  intros Hcount. unfold signal_handler.
  rewrite bind_gets, for_each_emit.
  eexists _, _. split; [reflexivity |]. cbn [trace instances instance_count].
  rewrite Hcount.
  split; [reflexivity |]. split; [reflexivity |]. split; [reflexivity |].
  split; [apply status_reports_fmap |]. split; [apply stop_requests_reports |].
  rewrite length_fmap, length_seq. reflexivity.
Qed.

Lemma signal_handler_reports_every_entry_witness :
  exists (p' : proc) (t : list event),
    signal_handler SIGUSR1
      {| errno := 0; debug_level := 0; instance_count := 2;
         instances := spawned healthy_world 24 2 (-1) 0 [dev_a; dev_b];
         trace := [] |} = (Ret tt, p') /\
    trace p' = [] ++ t /\
    instances p' = spawned healthy_world 24 2 (-1) 0 [dev_a; dev_b] /\
    instance_count p' = 2%nat /\
    status_reports t = seq 0 2 /\
    stop_requests t = [] /\
    length t = 2%nat.
Proof.
  apply (signal_handler_reports_every_entry
           {| errno := 0; debug_level := 0; instance_count := 2;
              instances := spawned healthy_world 24 2 (-1) 0 [dev_a; dev_b];
              trace := [] |}).
  reflexivity.
Defined.

(** ** [run_single], every path *)

(* The run once the device is resolved. *)
Lemma run_single_resolved (w : world) (device_num : Z) (device_name : option string)
    (b q pr : Z) (device : ow_usb_device) (p : proc) :
  ow_get_usb_device_from_device_attrs w device_num device_name = Resolved device ->
  run_single w device_num device_name b q pr p =
  (Ret (if jclient_init w 0 (mk_jclient device b q pr) =? 0
        then OW_OK else OW_GENERIC_ERROR),
   {| errno := errno p; debug_level := debug_level p;
      instance_count := 1; instances := [];
      trace := trace p ++
        EvGetDevice device_num device_name
        :: EvJclientInit 0 (mk_jclient device b q pr)
        :: (if jclient_init w 0 (mk_jclient device b q pr) =? 0
            then [EvPthreadCreate 0; EvPthreadJoin 0 (Some 0%nat)] else []) |}).
Proof.
  intros Hres. unfold run_single. rewrite bind_emit, Hres.
  rewrite !bind_modify. unfold store_jclient, call_jclient_init.
  rewrite bind_modify, !bind_assoc, bind_emit, bind_ret.
  destruct (jclient_init w 0 (mk_jclient device b q pr) =? 0);
    simpl negb; cbv iota.
  - unfold pthread_create. rewrite !bind_assoc, bind_emit, bind_modify.
    rewrite bind_assoc, bind_pthread_join, bind_ret.
    unfold free_instances. rewrite bind_modify. unfold mret, M_ret.
    proc_simpl. simpl. rewrite <- !app_assoc. reflexivity.
  - rewrite bind_ret. unfold free_instances. rewrite bind_modify.
    unfold mret, M_ret. proc_simpl. rewrite <- !app_assoc. reflexivity.
Qed.

(** X3.  Single-device mode, the device resolved and its worker
    initialized: one thread is created, for the one instance, and joined
    through the handle [pthread_create] wrote, after which the table is
    released and the run returns [OW_OK]. *)
Theorem run_single_runs_one_worker (w : world) (device_num : Z)
    (device_name : option string) (b q pr : Z)
    (device : ow_usb_device) (p : proc) :
  ow_get_usb_device_from_device_attrs w device_num device_name = Resolved device ->
  jclient_init w 0 (mk_jclient device b q pr) = 0 ->
  exists (p' : proc) (t : list event),
    run_single w device_num device_name b q pr p = (Ret OW_OK, p') /\
    trace p' = trace p ++ t /\
    t = [EvGetDevice device_num device_name;
         EvJclientInit 0 (mk_jclient device b q pr);
         EvPthreadCreate 0;
         EvPthreadJoin 0 (Some 0%nat)] /\
    instances p' = [] /\
    instance_count p' = 1%nat.
Proof.
  intros Hres Hok. rewrite (run_single_resolved _ _ _ _ _ _ _ _ Hres), Hok.
  change (0 =? 0) with true. cbv iota.
  eexists _, _. split; [reflexivity |]. repeat split.
Qed.

Lemma run_single_runs_one_worker_witness :
  exists (p' : proc) (t : list event),
    run_single healthy_world (-1) (Some "Digitone") 16 3 50 (initial_proc healthy_world)
      = (Ret OW_OK, p') /\
    trace p' = trace (initial_proc healthy_world) ++ t /\
    t = [EvGetDevice (-1) (Some "Digitone");
         EvJclientInit 0 (mk_jclient dev_b 16 3 50);
         EvPthreadCreate 0;
         EvPthreadJoin 0 (Some 0%nat)] /\
    instances p' = [] /\
    instance_count p' = 1%nat.
Proof.
  apply (run_single_runs_one_worker healthy_world (-1) (Some "Digitone") 16 3 50 dev_b).
  - reflexivity.
  - reflexivity.
Defined.

(** X4.  The value [run_single] returns, when it returns: [OW_OK] or
    [OW_GENERIC_ERROR] and nothing else, [OW_OK] exactly when the device was
    resolved and its worker initialized; whatever error the lookup reports,
    an enumeration error included, comes back as [OW_GENERIC_ERROR]. *)
Theorem run_single_status (w : world) (device_num : Z)
    (device_name : option string) (b q pr : Z) (p p' : proc) (status : Z) :
  run_single w device_num device_name b q pr p = (Ret status, p') ->
  (status = OW_OK \/ status = OW_GENERIC_ERROR) /\
  (status = OW_OK <->
   exists device,
     ow_get_usb_device_from_device_attrs w device_num device_name
       = Resolved device /\
     jclient_init w 0 (mk_jclient device b q pr) = 0).
Proof.
  destruct (ow_get_usb_device_from_device_attrs w device_num device_name)
    as [device | | err] eqn:Hres.
  - rewrite (run_single_resolved _ _ _ _ _ _ _ _ Hres).
    destruct (Z.eqb_spec (jclient_init w 0 (mk_jclient device b q pr)) 0) as [Hok | Hko];
      intros [= <- _].
    + split; [left; reflexivity |]. split; [| reflexivity].
      intros _. exists device. split; [reflexivity | exact Hok].
    + split; [right; reflexivity |]. split; [discriminate |].
      intros (d & Hd & Hinit). injection Hd as <-. contradiction.
  - rewrite run_single_unresolved by (intros d; rewrite Hres; discriminate).
    intros [= <- _]. split; [right; reflexivity |].
    split; [discriminate | intros (d & Hd & _); discriminate].
  - rewrite run_single_unresolved by (intros d; rewrite Hres; discriminate).
    intros [= <- _]. split; [right; reflexivity |].
    split; [discriminate | intros (d & Hd & _); discriminate].
Qed.

Lemma run_single_status_witness :
  (OW_GENERIC_ERROR = OW_OK \/ OW_GENERIC_ERROR = OW_GENERIC_ERROR) /\
  (OW_GENERIC_ERROR = OW_OK <->
   exists device,
     ow_get_usb_device_from_device_attrs broken_bus_world (-1) (Some "Digitakt")
       = Resolved device /\
     jclient_init broken_bus_world 0 (mk_jclient device 24 2 (-1)) = 0).
Proof.
  apply (run_single_status broken_bus_world (-1) (Some "Digitakt") 24 2 (-1)
           (initial_proc broken_bus_world)
           (add_event (EvGetDevice (-1) (Some "Digitakt"))
                      (initial_proc broken_bus_world))).
  reflexivity.
Defined.

(** ** [run_all], every path *)

Lemma inits_app (t1 t2 : list event) :
  inits (t1 ++ t2) = inits t1 ++ inits t2.
Proof.
  induction t1 as [| e t1 IH]; [reflexivity |].
  destruct e; simpl; rewrite IH; reflexivity.
Qed.

Lemma inits_joins (f : nat -> option pthread_t) (indices : list nat) :
  inits ((fun i => EvPthreadJoin i (f i)) <$> indices) = [].
Proof. induction indices as [| i rest IH]; [reflexivity | exact IH]. Qed.

(* The run when the bus cannot be enumerated. *)
Lemma run_all_fails (w : world) (b q pr : Z) (err : ow_err_t)
    (devices : list ow_usb_device) (p : proc) :
  ow_get_devices w = (err, devices) ->
  err <> 0 ->
  run_all w b q pr p =
  (Ret err,
   {| errno := errno p; debug_level := debug_level p;
      instance_count := length devices; instances := instances p;
      trace := trace p ++ [EvGetDevices] |}).
Proof.
  intros Hdev Herr. unfold run_all. rewrite bind_emit, Hdev, bind_modify.
  apply Z.eqb_neq in Herr. rewrite Herr. reflexivity.
Qed.

(** X5.  Fleet mode on a bus that cannot be enumerated: the run returns the
    error of the enumeration as it is, having called nothing else; no table
    is allocated, no worker is initialized, no thread is created or
    joined. *)
Theorem run_all_enumeration_error (w : world) (b q pr : Z) (err : ow_err_t)
    (devices : list ow_usb_device) (p : proc) :
  ow_get_devices w = (err, devices) ->
  err <> 0 ->
  exists (p' : proc),
    run_all w b q pr p = (Ret err, p') /\
    trace p' = trace p ++ [EvGetDevices] /\
    instances p' = instances p.
Proof.
  intros Hdev Herr. rewrite (run_all_fails w b q pr err devices p Hdev Herr).
  eexists. repeat split.
Qed.

Lemma run_all_enumeration_error_witness :
  exists (p' : proc),
    run_all broken_bus_world 24 2 (-1) (initial_proc broken_bus_world) = (Ret 2, p') /\
    trace p' = trace (initial_proc broken_bus_world) ++ [EvGetDevices] /\
    instances p' = instances (initial_proc broken_bus_world).
Proof.
  apply (run_all_enumeration_error broken_bus_world 24 2 (-1) 2 []).
  - reflexivity.
  - lia.
Defined.

Section SpawnOrder.
Variable w : world.
Variables b q pr : Z.

Lemma inits_spawn (devices : list ow_usb_device) :
  forall (i : nat),
    inits (spawn_trace w b q pr i devices) =
    zip_with (fun k device => (k, mk_jclient device b q pr))
             (seq i (length devices)) devices.
Proof.
  induction devices as [| device rest IH]; intros i; [reflexivity |].
  simpl. destruct (init_succeeds w b q pr i device); simpl; rewrite IH; reflexivity.
Qed.

Lemma threads_created_spawn_handles (devices : list ow_usb_device) :
  forall (i : nat),
    threads_created (spawn_trace w b q pr i devices) =
    omap snd (zip_with (joined_handle w b q pr) (seq i (length devices)) devices).
Proof.
  induction devices as [| device rest IH]; intros i; [reflexivity |].
  simpl. unfold joined_handle at 1.
  destruct (init_succeeds w b q pr i device); simpl; rewrite IH; reflexivity.
Qed.

Lemma joined_handles (devices : list ow_usb_device) :
  (fun i => (i, spawned w b q pr 0 devices !! i ≫= thread))
    <$> seq 0 (length devices) =
  zip_with (joined_handle w b q pr) (seq 0 (length devices)) devices.
Proof.
  apply list_eq. intros k.
  rewrite list_lookup_fmap, lookup_zip_with.
  destruct (devices !! k) as [device |] eqn:Hk.
  - rewrite lookup_seq_lt by (apply lookup_lt_Some in Hk; exact Hk).
    simpl. rewrite (spawned_lookup w b q pr devices 0 k), Hk. reflexivity.
  - apply lookup_ge_None in Hk. rewrite lookup_seq_ge by exact Hk. reflexivity.
Qed.
End SpawnOrder.







(** ** Option values *)

Lemma rejected_false (e : Z) (s : string) (endstr : nat) (v lo hi : Z) :
  rejected e s endstr v lo hi = false ->
  e = 0 /\ endstr <> O /\ not_at_end s endstr = false /\ lo <= v <= hi.
Proof.
  unfold rejected. rewrite !orb_false_iff, negb_false_iff.
  intros ((((He & Hend) & Hrest) & Hlo) & Hhi).
  apply Z.eqb_eq in He. apply Nat.eqb_neq in Hend.
  apply Z.ltb_ge in Hlo. rewrite Z.gtb_ltb in Hhi. apply Z.ltb_ge in Hhi.
  auto.
Qed.

Lemma rejected_errno (e : Z) (s : string) (endstr : nat) (v lo hi : Z) :
  e <> 0 -> rejected e s endstr v lo hi = true.
Proof.
  intros He. unfold rejected. apply Z.eqb_neq in He. rewrite He. reflexivity.
Qed.

Lemma parse_decimal_no_digits (s : string) :
  (parse_decimal s).2 = O -> (parse_decimal s).1 = 0.
Proof.
  unfold parse_decimal.
  destruct (drop_chars (skip_space s) s) as [| c s1]; simpl.
  - reflexivity.
  - destruct (Ascii.eqb c "-") eqn:Hm; [apply Ascii.eqb_eq in Hm; subst c |];
      [| destruct (Ascii.eqb c "+") eqn:Hp; [apply Ascii.eqb_eq in Hp; subst c |]].
    + simpl. destruct (digits s1 0) as [v [| k]]; simpl; [reflexivity | lia].
    + simpl. destruct (digits s1 0) as [v [| k]]; simpl; [reflexivity | lia].
    + assert (Hsign :
        match c with
        | "-"%char => (true, 1%nat)
        | "+"%char => (false, 1%nat)
        | _ => (false, 0%nat)
        end = (false, 0%nat)).
      { destruct c as [[] [] [] [] [] [] [] []]; try reflexivity; discriminate. }
      rewrite Hsign. simpl drop_chars.
      destruct (digits (String c s1) 0) as [v [| k]]; simpl; [reflexivity | lia].
Qed.

(** X9.  With [errno] clear, a value that is a well-formed integer with
    nothing after it and lies in the range of its option is kept as it is:
    quality in [0..4], block count in [2..32], priority in [0..99].  No
    warning is written and [errno] stays clear. *)
Theorem valid_values_kept (s : string) (l : locals) (p : proc) :
  errno p = 0 ->
  (parse_decimal s).2 <> O ->
  not_at_end s (parse_decimal s).2 = false ->
  (0 <= (parse_decimal s).1 <= 4 ->
   handle_option (opt_q s) l p = (Ret (set_quality (parse_decimal s).1 l), p)) /\
  (2 <= (parse_decimal s).1 <= 32 ->
   handle_option (opt_b s) l p = (Ret (set_blocks (parse_decimal s).1 l), p)) /\
  (0 <= (parse_decimal s).1 <= 99 ->
   handle_option (opt_p s) l p = (Ret (set_priority (parse_decimal s).1 l), p)).
Proof.
  intros Herrno Hdigits Hend.
  assert (Hkept : forall lo hi, -2147483648 <= lo -> hi <= 2147483647 ->
            lo <= (parse_decimal s).1 <= hi ->
            strtol s = {| strtol_value := (parse_decimal s).1;
                          strtol_end := (parse_decimal s).2;
                          strtol_erange := false |} /\
            to_int (parse_decimal s).1 = (parse_decimal s).1 /\
            rejected 0 s (parse_decimal s).2 (parse_decimal s).1 lo hi = false).
  { intros lo hi Hlo Hhi Hv.
    assert (Hint : INT_MIN <= (parse_decimal s).1 <= INT_MAX)
      by (destruct int_bounds as [-> ->]; lia).
    split; [apply strtol_in_int_range, Hint |].
    split; [apply to_int_in_range, Hint |].
    destruct (rejected 0 s (parse_decimal s).2 (parse_decimal s).1 lo hi) eqn:Hrej;
      [| reflexivity].
    pose proof (rejected_in_int_range 0 s lo hi Hint) as Hiff.
    rewrite (strtol_in_int_range s Hint) in Hiff.
    cbn [strtol_value strtol_end] in Hiff.
    rewrite (to_int_in_range _ Hint) in Hiff.
    apply Hiff in Hrej. destruct Hrej as [? | [? | [? | ?]]];
      [contradiction | contradiction | congruence | lia]. }
  split; [| split]; intros Hv; unfold handle_option;
    rewrite (bind_returns _ _ _ _ _ (call_strtol_runs s p)); cbv beta iota;
    rewrite bind_gets.
  - destruct (Hkept 0 4 ltac:(lia) ltac:(lia) Hv) as (Hs & Hto & Hrej).
    rewrite Hs. cbn [strtol_erange strtol_value strtol_end]. proc_simpl.
    rewrite Hto, Herrno, Hrej. destruct p; simpl in Herrno; subst; reflexivity.
  - destruct (Hkept 2 32 ltac:(lia) ltac:(lia) Hv) as (Hs & Hto & Hrej).
    rewrite Hs. cbn [strtol_erange strtol_value strtol_end]. proc_simpl.
    rewrite Hto, Herrno, Hrej. destruct p; simpl in Herrno; subst; reflexivity.
  - destruct (Hkept 0 99 ltac:(lia) ltac:(lia) Hv) as (Hs & Hto & Hrej).
    rewrite Hs. cbn [strtol_erange strtol_value strtol_end]. proc_simpl.
    rewrite Hto, Herrno, Hrej. destruct p; simpl in Herrno; subst; reflexivity.
Qed.

Lemma valid_values_kept_witness :
  handle_option (opt_q " +3") initial_locals (initial_proc healthy_world)
  = (Ret (set_quality 3 initial_locals), initial_proc healthy_world) /\
  handle_option (opt_b " +3") initial_locals (initial_proc healthy_world)
  = (Ret (set_blocks 3 initial_locals), initial_proc healthy_world) /\
  handle_option (opt_p " +3") initial_locals (initial_proc healthy_world)
  = (Ret (set_priority 3 initial_locals), initial_proc healthy_world).
Proof.
  destruct (valid_values_kept " +3" initial_locals (initial_proc healthy_world))
    as (Hq & Hb & Hp).
  - reflexivity.
  - simpl. lia.
  - reflexivity.
  - split; [apply Hq; vm_compute; split; discriminate |].
    split; [apply Hb | apply Hp]; vm_compute; split; discriminate.
Defined.

(** X10.  The device number is not validated.  Whatever the text of [-n],
    its value in the range of [int] becomes the device number without any
    diagnostic: text with no digit reads as 0, and what follows the digits
    is ignored. *)
Theorem device_number_not_validated (s : string) (l : locals) (p : proc) :
  INT_MIN <= (parse_decimal s).1 <= INT_MAX ->
  handle_option (opt_n s) l p = (Ret (set_device_num (parse_decimal s).1 l), p) /\
  ((parse_decimal s).2 = O -> device_num (set_device_num (parse_decimal s).1 l) = 0).
Proof.
  intros Hint. split.
  - unfold handle_option.
    rewrite (bind_returns _ _ _ _ _ (call_strtol_runs s p)). cbv beta iota.
    rewrite (strtol_in_int_range s Hint). cbn [strtol_erange strtol_value].
    rewrite (to_int_in_range _ Hint). destruct p; reflexivity.
  - intros Hnone. simpl. apply parse_decimal_no_digits, Hnone.
Qed.

Lemma device_number_not_validated_witness :
  handle_option (opt_n "first") initial_locals (initial_proc healthy_world)
  = (Ret (set_device_num 0 initial_locals), initial_proc healthy_world) /\
  device_num (set_device_num (parse_decimal "first").1 initial_locals) = 0.
Proof.
  destruct (device_number_not_validated "first" initial_locals
              (initial_proc healthy_world)) as (Hrun & Hzero).
  - vm_compute. split; discriminate.
  - split; [exact Hrun | apply Hzero; reflexivity].
Defined.

(** ** [errno] is tested but never cleared *)

(* One option read while [errno] is set. *)
Lemma handle_option_errno_set (o : getopt_ret) (l : locals) (p : proc) :
  errno p <> 0 ->
  is_opt_h o = false ->
  exists (l' : locals) (p' : proc) (t : list event),
    handle_option o l p = (Ret l', p') /\
    errno p' <> 0 /\
    quality l' = (if is_opt_q o then DEFAULT_QUALITY else quality l) /\
    blocks_per_transfer l' = (if is_opt_b o then DEFAULT_BLOCKS else blocks_per_transfer l) /\
    priority l' = (if is_opt_p o then DEFAULT_PRIORITY else priority l) /\
    trace p' = trace p ++ t /\
    Forall (fun e => is_warning e = true) t /\
    Z.of_nat (length t) =
      times_given is_opt_q [o] + times_given is_opt_b [o] + times_given is_opt_p [o].
Proof.
  intros Herrno Hh.
  assert (Hset : forall s : string,
            errno (set_errno (if strtol_erange (strtol s) then ERANGE else errno p) p) <> 0).
  { intros s. proc_simpl. destruct (strtol_erange (strtol s)); [discriminate | exact Herrno]. }
  destruct o as [s | s | s | s | s | | | |]; try discriminate Hh;
    unfold handle_option;
    try (rewrite (bind_returns _ _ _ _ _ (call_strtol_runs s p));
         cbv beta iota; try rewrite bind_gets;
         try rewrite (rejected_errno _ _ _ _ _ _ (Hset s)); try rewrite bind_emit).
  - eexists _, _, []. split; [reflexivity |]. split; [apply Hset |].
    rewrite app_nil_r. repeat split. constructor.
  - eexists _, _, []. split; [reflexivity |]. split; [exact Herrno |].
    rewrite app_nil_r. repeat split. constructor.
  - eexists _, _, [_]. split; [reflexivity |]. split; [apply Hset |].
    repeat split. repeat constructor.
  - eexists _, _, [_]. split; [reflexivity |]. split; [apply Hset |].
    repeat split. repeat constructor.
  - eexists _, _, [_]. split; [reflexivity |]. split; [apply Hset |].
    repeat split. repeat constructor.
  - eexists _, _, []. split; [reflexivity |]. split; [exact Herrno |].
    rewrite app_nil_r. repeat split. constructor.
  - eexists _, _, []. split; [reflexivity |]. split; [exact Herrno |].
    rewrite app_nil_r. repeat split. constructor.
  - eexists _, _, []. split; [reflexivity |]. split; [exact Herrno |].
    rewrite app_nil_r. repeat split. constructor.
Qed.

Lemma given_again (c : bool) (n d x : Z) :
  0 <= n ->
  (if 0 <? n then d else if c then d else x) =
  (if 0 <? (if c then 1 else 0) + n then d else x).
Proof.
  intros Hn. destruct c.
  - destruct (Z.ltb_spec 0 n); destruct (Z.ltb_spec 0 (1 + n));
      try reflexivity; lia.
  - destruct (Z.ltb_spec 0 n); destruct (Z.ltb_spec 0 (0 + n));
      try reflexivity; lia.
Qed.

(* The loop, entered with [errno] set. *)
Lemma getopt_loop_errno_set (opts : list getopt_ret) :
  forall (l : locals) (p : proc),
    errno p <> 0 ->
    times_given is_opt_h opts = 0 ->
    exists (l' : locals) (p' : proc) (t : list event),
      getopt_loop opts l p = (Ret l', p') /\
      errno p' <> 0 /\
      quality l' =
        (if 0 <? times_given is_opt_q opts then DEFAULT_QUALITY else quality l) /\
      blocks_per_transfer l' =
        (if 0 <? times_given is_opt_b opts then DEFAULT_BLOCKS
         else blocks_per_transfer l) /\
      priority l' =
        (if 0 <? times_given is_opt_p opts then DEFAULT_PRIORITY else priority l) /\
      trace p' = trace p ++ t /\
      Forall (fun e => is_warning e = true) t /\
      Z.of_nat (length t) =
        times_given is_opt_q opts + times_given is_opt_b opts
        + times_given is_opt_p opts.
Proof.
  induction opts as [| o rest IH]; intros l p Herrno Hh.
  - exists l, p, []. rewrite app_nil_r. repeat split; try assumption. constructor.
  - simpl in Hh. pose proof (times_given_nonneg is_opt_h rest) as Hrest.
    destruct (is_opt_h o) eqn:Ho; [lia |].
    destruct (handle_option_errno_set o l p Herrno Ho)
      as (l1 & p1 & t1 & Hrun1 & He1 & Hq1 & Hb1 & Hp1 & Ht1 & Hw1 & Hn1).
    destruct (IH l1 p1 He1 ltac:(lia))
      as (l2 & p2 & t2 & Hrun2 & He2 & Hq2 & Hb2 & Hp2 & Ht2 & Hw2 & Hn2).
    exists l2, p2, (t1 ++ t2).
    pose proof (times_given_nonneg is_opt_q rest) as Hq.
    pose proof (times_given_nonneg is_opt_b rest) as Hb.
    pose proof (times_given_nonneg is_opt_p rest) as Hp.
    split; [simpl; rewrite (bind_returns _ _ _ _ _ Hrun1); exact Hrun2 |].
    split; [exact He2 |].
    simpl times_given in *. rewrite Hq2, Hb2, Hp2, Hq1, Hb1, Hp1.
    split; [| split; [| split; [| split; [| split]]]].
    + apply given_again, Hq.
    + apply given_again, Hb.
    + apply given_again, Hp.
    + rewrite Ht2, Ht1, app_assoc. reflexivity.
    + apply Forall_app. split; assumption.
    + rewrite length_app. lia.
Qed.

(** X11.  [errno] is tested by the three numeric options and never
    cleared.  When the option loop is entered with [errno] set, and help is
    not asked for, every [-q], [-b] and [-p] of the command line is answered
    by its warning and its default, whatever its value: the loop ends with
    the default of each option that was given, one warning per such option,
    and [errno] still set. *)
Theorem stale_errno_defaults_every_value (opts : list getopt_ret)
    (l : locals) (p : proc) :
  errno p <> 0 ->
  times_given is_opt_h opts = 0 ->
  exists (l' : locals) (p' : proc) (t : list event),
    getopt_loop opts l p = (Ret l', p') /\
    errno p' <> 0 /\
    quality l' =
      (if 0 <? times_given is_opt_q opts then DEFAULT_QUALITY else quality l) /\
    blocks_per_transfer l' =
      (if 0 <? times_given is_opt_b opts then DEFAULT_BLOCKS
       else blocks_per_transfer l) /\
    priority l' =
      (if 0 <? times_given is_opt_p opts then DEFAULT_PRIORITY else priority l) /\
    trace p' = trace p ++ t /\
    Forall (fun e => is_warning e = true) t /\
    Z.of_nat (length t) =
      times_given is_opt_q opts + times_given is_opt_b opts
      + times_given is_opt_p opts.
Proof. intros Herrno Hh. apply getopt_loop_errno_set; assumption. Qed.

Lemma stale_errno_defaults_every_value_witness :
  exists (l' : locals) (p' : proc) (t : list event),
    getopt_loop [opt_q "3"; opt_v; opt_b "16"] initial_locals
      {| errno := ERANGE; debug_level := 0; instance_count := 0;
         instances := []; trace := [] |} = (Ret l', p') /\
    errno p' <> 0 /\
    quality l' =
      (if 0 <? times_given is_opt_q [opt_q "3"; opt_v; opt_b "16"]
       then DEFAULT_QUALITY else quality initial_locals) /\
    blocks_per_transfer l' =
      (if 0 <? times_given is_opt_b [opt_q "3"; opt_v; opt_b "16"]
       then DEFAULT_BLOCKS else blocks_per_transfer initial_locals) /\
    priority l' =
      (if 0 <? times_given is_opt_p [opt_q "3"; opt_v; opt_b "16"]
       then DEFAULT_PRIORITY else priority initial_locals) /\
    trace p' = [] ++ t /\
    Forall (fun e => is_warning e = true) t /\
    Z.of_nat (length t) =
      times_given is_opt_q [opt_q "3"; opt_v; opt_b "16"]
      + times_given is_opt_b [opt_q "3"; opt_v; opt_b "16"]
      + times_given is_opt_p [opt_q "3"; opt_v; opt_b "16"].
Proof.
  apply (stale_errno_defaults_every_value [opt_q "3"; opt_v; opt_b "16"] initial_locals
           {| errno := ERANGE; debug_level := 0; instance_count := 0;
              instances := []; trace := [] |}).
  - simpl. unfold ERANGE. lia.
  - reflexivity.
Defined.

(** X12.  A device number beyond the range of [long] makes [strtol] set
    [errno], and no diagnostic is written for it; from then on every
    quality, block count and priority of the command line is turned down,
    valid or not.  [main], given such a [-n] first and no request for help:
    the settings of each numeric option given are its defaults, with one
    warning per such option. *)
Theorem device_number_overflow_defaults_the_rest (s : string)
    (rest : list getopt_ret) (l : locals) (p : proc) :
  (parse_decimal s).1 < LONG_MIN \/ LONG_MAX < (parse_decimal s).1 ->
  times_given is_opt_h rest = 0 ->
  exists (l' : locals) (p' : proc) (t : list event),
    getopt_loop (opt_n s :: rest) l p = (Ret l', p') /\
    quality l' =
      (if 0 <? times_given is_opt_q rest then DEFAULT_QUALITY else quality l) /\
    blocks_per_transfer l' =
      (if 0 <? times_given is_opt_b rest then DEFAULT_BLOCKS
       else blocks_per_transfer l) /\
    priority l' =
      (if 0 <? times_given is_opt_p rest then DEFAULT_PRIORITY else priority l) /\
    trace p' = trace p ++ t /\
    Forall (fun e => is_warning e = true) t /\
    Z.of_nat (length t) =
      times_given is_opt_q rest + times_given is_opt_b rest
      + times_given is_opt_p rest.
Proof.
  intros Hbig Hh.
  assert (Hfirst :
    handle_option (opt_n s) l p =
    (Ret (set_device_num (to_int (strtol_value (strtol s))) l), set_errno ERANGE p)).
  { unfold handle_option.
    rewrite (bind_returns _ _ _ _ _ (call_strtol_runs s p)). cbv beta iota.
    rewrite (strtol_beyond_long s Hbig). reflexivity. }
  destruct (getopt_loop_errno_set rest
              (set_device_num (to_int (strtol_value (strtol s))) l)
              (set_errno ERANGE p) ltac:(discriminate) Hh)
    as (l' & p' & t & Hrun & _ & Hq & Hb & Hp & Ht & Hw & Hn).
  exists l', p', t. split.
  - simpl getopt_loop. rewrite (bind_returns _ _ _ _ _ Hfirst). exact Hrun.
  - cbn [quality blocks_per_transfer priority set_device_num] in Hq, Hb, Hp.
    proc_simpl. repeat split; assumption.
Qed.

Lemma device_number_overflow_defaults_the_rest_witness :
  exists (l' : locals) (p' : proc) (t : list event),
    getopt_loop (opt_n "99999999999999999999" :: [opt_q "3"]) initial_locals
      (initial_proc healthy_world) = (Ret l', p') /\
    quality l' =
      (if 0 <? times_given is_opt_q [opt_q "3"] then DEFAULT_QUALITY
       else quality initial_locals) /\
    blocks_per_transfer l' =
      (if 0 <? times_given is_opt_b [opt_q "3"] then DEFAULT_BLOCKS
       else blocks_per_transfer initial_locals) /\
    priority l' =
      (if 0 <? times_given is_opt_p [opt_q "3"] then DEFAULT_PRIORITY
       else priority initial_locals) /\
    trace p' = trace (initial_proc healthy_world) ++ t /\
    Forall (fun e => is_warning e = true) t /\
    Z.of_nat (length t) =
      times_given is_opt_q [opt_q "3"] + times_given is_opt_b [opt_q "3"]
      + times_given is_opt_p [opt_q "3"].
Proof.
  apply (device_number_overflow_defaults_the_rest "99999999999999999999"
           [opt_q "3"] initial_locals (initial_proc healthy_world)).
  - right. vm_compute. reflexivity.
  - reflexivity.
Defined.

(** ** Whole runs, every command line *)

Lemma quiet_trace (t : list event) :
  Forall (fun e => is_worker_call e = false) t ->
  inits t = [] /\ threads_created t = [] /\ joins t = [].
Proof.
  induction 1 as [| e t He _ (IH1 & IH2 & IH3)]; [repeat split |].
  destruct e; try discriminate He; simpl; auto.
Qed.

Lemma warnings_quiet (t : list event) :
  Forall (fun e => is_warning e = true) t ->
  Forall (fun e => is_worker_call e = false) t.
Proof.
  intros H. eapply Forall_impl; [exact H |].
  intros [[] | | | | | | | | |]; simpl; congruence.
Qed.

Lemma zip_seq_lookup {A : Type} (f : nat -> ow_usb_device -> A)
    (devices : list ow_usb_device) (i : nat) (device : ow_usb_device) :
  devices !! i = Some device ->
  zip_with f (seq 0 (length devices)) devices !! i = Some (f i device).
Proof.
  intros Hi. rewrite lookup_zip_with, Hi.
  rewrite lookup_seq_lt by (apply lookup_lt_Some in Hi; exact Hi). reflexivity.
Qed.

Lemma zip_seq_elem {A : Type} (f : nat -> ow_usb_device -> A)
    (devices : list ow_usb_device) (x : A) :
  x ∈ zip_with f (seq 0 (length devices)) devices ->
  exists (i : nat) (device : ow_usb_device),
    devices !! i = Some device /\ x = f i device.
Proof.
  intros Hx. apply list_elem_of_lookup in Hx as [k Hk].
  rewrite lookup_zip_with in Hk.
  destruct (seq 0 (length devices) !! k) as [j |] eqn:Hj; [| discriminate].
  destruct (devices !! k) as [device |] eqn:Hd; [| discriminate].
  apply lookup_seq in Hj as [-> _]. simpl in Hk. injection Hk as <-.
  exists k, device. auto.
Qed.

(* [run_all], whatever the enumeration returns. *)
Lemma run_all_worker_calls (w : world) (b q pr : Z) (p : proc) :
  exists (p' : proc) (t : list event),
    run_all w b q pr p = (Ret (ow_get_devices w).1, p') /\
    trace p' = trace p ++ t /\
    errno p' = errno p /\
    debug_level p' = debug_level p /\
    worker_calls_sound w b q pr t /\
    length (inits t) =
      (if (ow_get_devices w).1 =? 0 then length (ow_get_devices w).2 else O).
Proof.
  destruct (ow_get_devices w) as [err devices] eqn:Hdev. simpl.
  destruct (Z.eqb_spec err 0) as [-> | Herr].
  - rewrite (run_all_runs w b q pr devices p Hdev).
    eexists _, _. split; [reflexivity |]. cbn [trace errno debug_level].
    repeat (split; [reflexivity |]).
    assert (Hinits :
      inits (EvGetDevices :: spawn_trace w b q pr 0 devices ++
             ((fun i => EvPthreadJoin i (spawned w b q pr 0 devices !! i ≫= thread))
                <$> seq 0 (length devices))) =
      zip_with (fun k device => (k, mk_jclient device b q pr))
               (seq 0 (length devices)) devices).
    { simpl inits. rewrite inits_app, inits_joins, app_nil_r. apply inits_spawn. }
    split; [split |].
    + intros i jc Hin. rewrite Hinits in Hin.
      apply zip_seq_elem in Hin as (k & device & _ & Heq).
      injection Heq as -> ->. exists device. reflexivity.
    + intros i Hin. simpl threads_created in Hin.
      rewrite threads_created_app, threads_created_joins, app_nil_r in Hin.
      apply threads_created_spawn in Hin as (j & device & -> & Hj & Hok).
      simpl in Hok. exists (mk_jclient device b q pr).
      split; [| split].
      * rewrite Hinits. apply list_elem_of_lookup. exists j.
        apply (zip_seq_lookup (fun k d => (k, mk_jclient d b q pr))), Hj.
      * unfold init_succeeds in Hok. apply Z.eqb_eq, Hok.
      * simpl joins. rewrite joins_app, joins_spawn, joins_of_joins, joined_handles.
        simpl. apply list_elem_of_lookup. exists j.
        etrans; [apply zip_seq_lookup, Hj |].
        unfold joined_handle. rewrite Hok. reflexivity.
    + rewrite Hinits, length_zip_with, length_seq. lia.
  - rewrite (run_all_fails w b q pr err devices p Hdev Herr).
    eexists _, _. split; [reflexivity |]. cbn [trace errno debug_level].
    repeat (split; [reflexivity |]).
    split; [split |].
    + intros i jc Hin. inversion Hin.
    + intros i Hin. inversion Hin.
    + reflexivity.
Qed.

(* [run_single], whatever the lookup and the initialization return. *)
Lemma run_single_worker_calls (w : world) (device_num : Z)
    (device_name : option string) (b q pr : Z) (p : proc) :
  exists (status : Z) (p' : proc) (t : list event),
    run_single w device_num device_name b q pr p = (Ret status, p') /\
    (status = 0 \/ status = 1) /\
    trace p' = trace p ++ t /\
    errno p' = errno p /\
    debug_level p' = debug_level p /\
    worker_calls_sound w b q pr t.
Proof.
  destruct (ow_get_usb_device_from_device_attrs w device_num device_name)
    as [device | | err] eqn:Hres.
  - rewrite (run_single_resolved _ _ _ _ _ _ _ _ Hres).
    destruct (Z.eqb_spec (jclient_init w 0 (mk_jclient device b q pr)) 0) as [Hok | Hko];
      eexists _, _, _; (split; [reflexivity |]); cbn [trace errno debug_level].
    + split; [left; reflexivity |]. repeat (split; [reflexivity |]).
      split.
      * intros i jc Hin. simpl in Hin. apply list_elem_of_singleton in Hin.
        injection Hin as -> ->. exists device. reflexivity.
      * intros i Hin. simpl in Hin. apply list_elem_of_singleton in Hin as ->.
        exists (mk_jclient device b q pr). simpl.
        split; [left | split; [exact Hok | left]].
    + split; [right; reflexivity |]. repeat (split; [reflexivity |]).
      split.
      * intros i jc Hin. simpl in Hin. apply list_elem_of_singleton in Hin.
        injection Hin as -> ->. exists device. reflexivity.
      * intros i Hin. simpl in Hin. inversion Hin.
  - rewrite run_single_unresolved by (intros d; rewrite Hres; discriminate).
    eexists _, _, [_]. split; [reflexivity |].
    split; [right; reflexivity |]. repeat (split; [reflexivity |]).
    split; intros i; simpl; intros; match goal with H : _ ∈ [] |- _ => inversion H end.
  - rewrite run_single_unresolved by (intros d; rewrite Hres; discriminate).
    eexists _, _, [_]. split; [reflexivity |].
    split; [right; reflexivity |]. repeat (split; [reflexivity |]).
    split; intros i; simpl; intros; match goal with H : _ ∈ [] |- _ => inversion H end.
Qed.

(* The option loop keeps the three settings in their ranges. *)
Lemma handle_option_settings (o : getopt_ret) (l l' : locals) (p p' : proc) :
  settings_valid l ->
  handle_option o l p = (Ret l', p') ->
  settings_valid l'.
Proof.
  unfold settings_valid. intros (Hq & Hb & Hp).
  destruct o as [s | s | s | s | s | | | |]; unfold handle_option;
    try (rewrite (bind_returns _ _ _ _ _ (call_strtol_runs s p));
         cbv beta iota; try rewrite bind_gets).
  - intros [= <- _]. simpl. auto.
  - intros [= <- _]. simpl. auto.
  - destruct (rejected _ s _ _ 0 4) eqn:Hrej.
    + rewrite bind_emit. intros [= <- _]. simpl. unfold DEFAULT_QUALITY. lia.
    + intros [= <- _]. apply rejected_false in Hrej. simpl. tauto.
  - destruct (rejected _ s _ _ 2 32) eqn:Hrej.
    + rewrite bind_emit. intros [= <- _]. simpl. unfold DEFAULT_BLOCKS. lia.
    + intros [= <- _]. apply rejected_false in Hrej. simpl. tauto.
  - destruct (rejected _ s _ _ 0 99) eqn:Hrej.
    + rewrite bind_emit. intros [= <- _]. simpl. lia.
    + intros [= <- _]. apply rejected_false in Hrej. simpl. lia.
  - intros [= <- _]. simpl. auto.
  - intros [= <- _]. simpl. auto.
  - discriminate.
  - intros [= <- _]. simpl. auto.
Qed.

Lemma getopt_loop_settings (opts : list getopt_ret) :
  forall (l l' : locals) (p p' : proc),
    settings_valid l ->
    getopt_loop opts l p = (Ret l', p') ->
    settings_valid l'.
Proof.
  induction opts as [| o rest IH]; intros l l' p p' Hl.
  - intros [= <- _]. exact Hl.
  - simpl. unfold mbind, M_bind.
    destruct (handle_option o l p) as [[l1 | st] p1] eqn:Hrun; [| discriminate].
    apply IH. eapply handle_option_settings; eassumption.
Qed.

Lemma initial_settings_valid : settings_valid initial_locals.
Proof. unfold settings_valid. simpl. unfold DEFAULT_QUALITY, DEFAULT_BLOCKS, DEFAULT_PRIORITY. lia. Qed.

(* The three ways on from the options: out of the process before any
   worker call, into [run_all], into [run_single]. *)
Lemma after_options_cases (w : world) (l : locals) (p : proc) :
  (exists (st : Z) (p' : proc) (t : list event),
     after_options w l p = (Exit st, p') /\
     (st = 0 \/ st = 1) /\
     trace p' = trace p ++ t /\
     Forall (fun e => is_worker_call e = false) t /\
     debug_level p' =
       (if (errflg l >? 0) || (vflg l =? 0) then debug_level p else vflg l)) \/
  (exists (p1 : proc),
     trace p1 = trace p /\
     debug_level p1 = (if vflg l =? 0 then debug_level p else vflg l) /\
     errflg l <= 0 /\ lflg l = 0 /\
     ((nflg l + dflg l = 0 /\
       after_options w l p =
       run_all w (blocks_per_transfer l) (quality l) (priority l) p1) \/
      (nflg l + dflg l = 1 /\
       after_options w l p =
       run_single w (device_num l) (device_name l)
                  (blocks_per_transfer l) (quality l) (priority l) p1))).
Proof.
  destruct (Z.gtb_spec (errflg l) 0) as [Herr | Herr].
  { left. exists 1, (add_event EvPrintHelp p), [EvPrintHelp].
    unfold after_options, when.
    destruct (Z.gtb_spec (errflg l) 0); [| lia].
    split; [reflexivity |]. split; [right; reflexivity |].
    split; [reflexivity |]. split; [repeat constructor | reflexivity]. }
  rewrite after_options_dispatch by exact Herr.
  set (p1 := if negb (vflg l =? 0) then set_debug_level (vflg l) p else p).
  assert (Htrace : trace p1 = trace p) by apply trace_verbosity.
  assert (Hlevel : debug_level p1 = (if vflg l =? 0 then debug_level p else vflg l)).
  { unfold p1. destruct (vflg l =? 0); reflexivity. }
  simpl orb. rewrite <- Hlevel, <- Htrace. clearbody p1.
  unfold dispatch, when.
  destruct (Z.eqb_spec (lflg l) 0) as [Hl | Hl]; simpl negb; cbv iota.
  2: { left. unfold call_print_devices. rewrite !bind_assoc, bind_emit, bind_ret.
       destruct (print_devices w =? 0); simpl negb; cbv iota.
       - exists 0, (add_event EvPrintDevices p1), [EvPrintDevices].
         split; [reflexivity |]. split; [left; reflexivity |].
         split; [reflexivity |]. split; [repeat constructor | reflexivity].
       - exists 1, (add_event (EvStderr (MsgUsbError (print_devices w)))
                       (add_event EvPrintDevices p1)),
           [EvPrintDevices; EvStderr (MsgUsbError (print_devices w))].
         split; [reflexivity |]. split; [right; reflexivity |].
         split; [proc_simpl; rewrite <- app_assoc; reflexivity |].
         split; [repeat constructor | reflexivity]. }
  rewrite bind_ret.
  destruct (Z.gtb_spec (bflg l) 1) as [Hb | Hb].
  { left. exists 1, (add_event (EvStderr MsgUndeterminedBlocks) p1),
      [EvStderr MsgUndeterminedBlocks].
    split; [reflexivity |]. split; [right; reflexivity |].
    split; [reflexivity |]. split; [repeat constructor | reflexivity]. }
  rewrite bind_ret.
  destruct (Z.gtb_spec (pflg l) 1) as [Hp | Hp].
  { left. exists 1, (add_event (EvStderr MsgUndeterminedPriority) p1),
      [EvStderr MsgUndeterminedPriority].
    split; [reflexivity |]. split; [right; reflexivity |].
    split; [reflexivity |]. split; [repeat constructor | reflexivity]. }
  rewrite bind_ret.
  destruct (Z.eqb_spec (nflg l + dflg l) 0) as [H0 | H0].
  { right. exists p1. repeat (split; [reflexivity || assumption |]).
    left. split; [exact H0 | reflexivity]. }
  destruct (Z.eqb_spec (nflg l + dflg l) 1) as [H1 | H1].
  { right. exists p1. repeat (split; [reflexivity || assumption |]).
    right. split; [exact H1 | reflexivity]. }
  left. exists 1, (add_event (EvStderr MsgDeviceNotProvided) p1),
    [EvStderr MsgDeviceNotProvided].
  split; [reflexivity |]. split; [right; reflexivity |].
  split; [reflexivity |]. split; [repeat constructor | reflexivity].
Qed.

(* Every run: either no worker call at all and status 0 or 1, or warnings
   followed by the calls of [run_all] or [run_single] with settings in
   their ranges. *)
Lemma run_cases (w : world) (opts : list getopt_ret) :
  (exists (st : Z) (t : list event),
     run w opts = (st, t) /\ (st = 0 \/ st = 1) /\
     Forall (fun e => is_worker_call e = false) t) \/
  (exists (l : locals) (st : Z) (t0 t : list event),
     settings_valid l /\
     Forall (fun e => is_worker_call e = false) t0 /\
     run w opts = (st, t0 ++ t) /\
     worker_calls_sound w (blocks_per_transfer l) (quality l) (priority l) t /\
     (st = 0 \/ st = 1 \/ st = (ow_get_devices w).1)).
Proof.
  destruct (Z.eq_dec (times_given is_opt_h opts) 0) as [Hh | Hh].
  2: { left. pose proof (times_given_nonneg is_opt_h opts) as Hn.
       destruct (run_help w opts ltac:(lia)) as (t & Hw & ->).
       exists EXIT_SUCCESS, (t ++ [EvPrintHelp]).
       split; [reflexivity |]. split; [left; reflexivity |].
       apply Forall_app. split; [apply warnings_quiet, Hw | repeat constructor]. }
  destruct (getopt_loop_runs opts initial_locals (initial_proc w) Hh)
    as (l & p & Hloop & Hread).
  pose proof (getopt_loop_settings opts _ _ _ _ initial_settings_valid Hloop) as Hvalid.
  destruct Hread as (_ & _ & _ & _ & _ & _ & _ & _ & _ & _ & t0 & Ht0 & Hw0).
  simpl in Ht0. apply warnings_quiet in Hw0.
  assert (Hrun : run w opts =
                 (exit_status (after_options w l p).1, trace (after_options w l p).2)).
  { unfold run, main. rewrite (bind_returns _ _ _ _ _ Hloop).
    destruct (after_options w l p); reflexivity. }
  destruct (after_options_cases w l p)
    as [(st & p' & t & Hexit & Hst & Ht & Hq & _)
       | (p1 & Hp1 & _ & _ & _ & [[_ Hall] | [_ Hone]])].
  - left. exists st, (t0 ++ t). rewrite Hrun, Hexit. simpl.
    rewrite Ht, Ht0. split; [reflexivity |]. split; [exact Hst |].
    apply Forall_app. split; assumption.
  - right.
    destruct (run_all_worker_calls w (blocks_per_transfer l) (quality l) (priority l) p1)
      as (p' & t & Hall' & Ht & _ & _ & Hsound & _).
    exists l, (ow_get_devices w).1, t0, t.
    split; [exact Hvalid |]. split; [exact Hw0 |].
    rewrite Hrun, Hall, Hall'. simpl. rewrite Ht, Hp1, Ht0.
    split; [reflexivity |]. split; [exact Hsound | auto].
  - right.
    destruct (run_single_worker_calls w (device_num l) (device_name l)
                (blocks_per_transfer l) (quality l) (priority l) p1)
      as (st & p' & t & Hone' & Hst & Ht & _ & _ & Hsound).
    exists l, st, t0, t.
    split; [exact Hvalid |]. split; [exact Hw0 |].
    rewrite Hrun, Hone, Hone'. simpl. rewrite Ht, Hp1, Ht0.
    split; [reflexivity |]. split; [exact Hsound | tauto].
Qed.

Lemma mk_jclient_valid (l : locals) (device : ow_usb_device) :
  settings_valid l ->
  jclient_valid (mk_jclient device (blocks_per_transfer l) (quality l) (priority l)).
Proof.
  unfold settings_valid, jclient_valid. simpl. intros (Hq & Hb & Hp).
  repeat split; lia.
Qed.

(** X13.  Whatever the command line and whatever the devices do, every
    worker the launcher initializes is given a quality in [0..4], a block
    count in [2..32], a priority in [0..99] or the -1 that leaves it to JACK,
    a report period of 2 and no callback. *)
Theorem every_worker_gets_valid_settings (w : world) (opts : list getopt_ret) :
  Forall (fun '(i, jc) => jclient_valid jc) (inits (run w opts).2).
Proof.
  destruct (run_cases w opts)
    as [(st & t & -> & _ & Hq)
       | (l & st & t0 & t & Hvalid & Hq0 & -> & [Hsound _] & _)]; simpl.
  - apply quiet_trace in Hq as (-> & _). constructor.
  - rewrite inits_app. apply quiet_trace in Hq0 as (-> & _). simpl.
    apply Forall_forall. intros [i jc] Hin.
    destruct (Hsound i jc Hin) as [device ->].
    apply mk_jclient_valid, Hvalid.
Qed.

Lemma creations_sound_quiet (w : world) (t : list event) :
  Forall (fun e => is_worker_call e = false) t -> creations_sound w t.
Proof.
  intros Hq. exists t, []. rewrite app_nil_r.
  apply quiet_trace in Hq as (_ & Hc & Hj). rewrite Hc, Hj.
  repeat split. constructor.
Qed.

Lemma creations_sound_after (w : world) (t0 t : list event) :
  Forall (fun e => is_worker_call e = false) t0 ->
  creations_sound w t -> creations_sound w (t0 ++ t).
Proof.
  intros Hq (ta & tb & -> & Hj & Hc & Hall).
  apply quiet_trace in Hq as (Hi0 & Hc0 & Hj0).
  exists (t0 ++ ta), tb. rewrite app_assoc.
  rewrite joins_app, threads_created_app, inits_app, Hi0, Hc0, Hj0. simpl.
  repeat split; assumption.
Qed.

Lemma run_all_creations (w : world) (b q pr : Z) (p : proc) :
  exists (p' : proc) (t : list event),
    run_all w b q pr p = (Ret (ow_get_devices w).1, p') /\
    trace p' = trace p ++ t /\
    creations_sound w t.
Proof.
  destruct (ow_get_devices w) as [err devices] eqn:Hdev. simpl.
  destruct (Z.eqb_spec err 0) as [-> | Herr].
  - rewrite (run_all_runs w b q pr devices p Hdev).
    eexists _, _. split; [reflexivity |]. split; [reflexivity |].
    exists (EvGetDevices :: spawn_trace w b q pr 0 devices),
      ((fun i => EvPthreadJoin i (spawned w b q pr 0 devices !! i ≫= thread))
         <$> seq 0 (length devices)).
    split; [reflexivity |]. split; [apply joins_spawn |].
    split; [apply threads_created_joins |].
    apply Forall_forall. intros i Hin. simpl in Hin.
    apply threads_created_spawn in Hin as (j & device & -> & Hj & Hok).
    exists (mk_jclient device b q pr). split.
    + simpl inits. rewrite inits_spawn. apply list_elem_of_lookup. exists j.
      apply (zip_seq_lookup (fun k d => (k, mk_jclient d b q pr))), Hj.
    + unfold init_succeeds in Hok. apply Z.eqb_eq, Hok.
  - rewrite (run_all_fails w b q pr err devices p Hdev Herr).
    eexists _, _. split; [reflexivity |]. split; [reflexivity |].
    apply creations_sound_quiet. repeat constructor.
Qed.

Lemma run_single_creations (w : world) (device_num : Z)
    (device_name : option string) (b q pr : Z) (p : proc) :
  exists (status : Z) (p' : proc) (t : list event),
    run_single w device_num device_name b q pr p = (Ret status, p') /\
    trace p' = trace p ++ t /\
    creations_sound w t.
Proof.
  destruct (ow_get_usb_device_from_device_attrs w device_num device_name)
    as [device | | err] eqn:Hres.
  - rewrite (run_single_resolved _ _ _ _ _ _ _ _ Hres).
    destruct (Z.eqb_spec (jclient_init w 0 (mk_jclient device b q pr)) 0) as [Hok | Hko];
      eexists _, _, _; (split; [reflexivity |]); (split; [reflexivity |]).
    + exists [EvGetDevice device_num device_name;
              EvJclientInit 0 (mk_jclient device b q pr); EvPthreadCreate 0],
        [EvPthreadJoin 0 (Some 0%nat)].
      repeat split. simpl. repeat constructor.
      exists (mk_jclient device b q pr). split; [left | exact Hok].
    + exists [EvGetDevice device_num device_name;
              EvJclientInit 0 (mk_jclient device b q pr)], [].
      repeat split. simpl. constructor.
  - rewrite run_single_unresolved by (intros d; rewrite Hres; discriminate).
    eexists _, _, [_]. split; [reflexivity |]. split; [reflexivity |].
    apply creations_sound_quiet. repeat constructor.
  - rewrite run_single_unresolved by (intros d; rewrite Hres; discriminate).
    eexists _, _, [_]. split; [reflexivity |]. split; [reflexivity |].
    apply creations_sound_quiet. repeat constructor.
Qed.

(** X14.  Whatever the command line and whatever the devices do, every
    thread the launcher creates is created before its first join, and only
    for an instance whose worker was initialized with success before that
    join: no thread is ever created for a device that failed to
    initialize, and none after a join. *)
Theorem every_thread_is_initialized_first (w : world) (opts : list getopt_ret) :
  exists (ta tb : list event),
    (run w opts).2 = ta ++ tb /\
    joins ta = [] /\
    threads_created tb = [] /\
    Forall (fun i => exists jc, (i, jc) ∈ inits ta /\ jclient_init w i jc = 0)
           (threads_created ta).
Proof.
  change (creations_sound w (run w opts).2).
  destruct (Z.eq_dec (times_given is_opt_h opts) 0) as [Hh | Hh].
  2: { pose proof (times_given_nonneg is_opt_h opts) as Hn.
       destruct (run_help w opts ltac:(lia)) as (t & Hw & ->). simpl.
       apply creations_sound_quiet, Forall_app.
       split; [apply warnings_quiet, Hw | repeat constructor]. }
  destruct (getopt_loop_runs opts initial_locals (initial_proc w) Hh)
    as (l & p & Hloop & Hread).
  destruct Hread as (_ & _ & _ & _ & _ & _ & _ & _ & _ & _ & t0 & Ht0 & Hw0).
  simpl in Ht0. apply warnings_quiet in Hw0.
  unfold run, main. rewrite (bind_returns _ _ _ _ _ Hloop).
  destruct (after_options_cases w l p)
    as [(st & p' & t & -> & _ & Ht & Hq & _)
       | (p1 & Hp1 & _ & _ & _ & [[_ ->] | [_ ->]])].
  - simpl. rewrite Ht, Ht0. apply creations_sound_quiet, Forall_app. auto.
  - match goal with
    | |- context [run_all w ?b ?q ?pr p1] =>
        destruct (run_all_creations w b q pr p1) as (p' & t & -> & Ht & Hsound)
    end.
    simpl. rewrite Ht, Hp1, Ht0. apply creations_sound_after; assumption.
  - match goal with
    | |- context [run_single w ?n ?name ?b ?q ?pr p1] =>
        destruct (run_single_creations w n name b q pr p1)
          as (st & p' & t & -> & Ht & Hsound)
    end.
    simpl. rewrite Ht, Hp1, Ht0. apply creations_sound_after; assumption.
Qed.

(* A run that ends: its status and trace are the model's, and no join in it
   was made on a handle that was never written. *)
Lemma behaviour_ends (r : Z * list event) (st : Z) (t : list event) :
  behaviour_of r = Ends st t ->
  st = r.1 /\ t = r.2 /\ undefined_prefix r.2 = None.
Proof.
  unfold behaviour_of. destruct (undefined_prefix r.2); [discriminate |].
  intros [= <- <-]. auto.
Qed.

Lemma undefined_prefix_joins (t : list event) :
  undefined_prefix t = None ->
  Forall (fun x : nat * option pthread_t => x.2 <> None) (joins t).
Proof.
  induction t as [| e t IH]; [constructor |].
  simpl. destruct (is_undefined_call e) eqn:He; [discriminate |].
  destruct (undefined_prefix t); [discriminate |]. intros _.
  specialize (IH eq_refl).
  destruct e as [| | | | | | | i [h |] | |]; try exact IH.
  - constructor; [discriminate | exact IH].
  - discriminate He.
Qed.

Lemma all_handles_written (w : world) (b q pr : Z) (devices : list ow_usb_device) :
  forall (i : nat),
    Forall (fun x : nat * option pthread_t => x.2 <> None)
           (zip_with (joined_handle w b q pr) (seq i (length devices)) devices) ->
    omap snd (zip_with (joined_handle w b q pr) (seq i (length devices)) devices)
    = seq i (length devices).
Proof.
  induction devices as [| device rest IH]; intros i; [reflexivity |].
  simpl. intros H. apply Forall_cons in H as [Hhead Hrest].
  unfold joined_handle at 1 in Hhead. unfold joined_handle at 1.
  destruct (init_succeeds w b q pr i device); simpl in *; [| contradiction].
  f_equal. apply IH, Hrest.
Qed.

(** X15.  A run that ends without a join on a never-written handle ends
    with status 0, 1, or the error code of the enumeration in fleet mode,
    whatever the command line and whatever the devices do. *)
Theorem exit_status_values (w : world) (opts : list getopt_ret)
    (st : Z) (t : list event) :
  behaviour_of (run w opts) = Ends st t ->
  st = 0 \/ st = 1 \/ st = (ow_get_devices w).1.
Proof.
  intros Hends. apply behaviour_ends in Hends as (-> & _ & _).
  destruct (run_cases w opts)
    as [(st & t' & -> & Hst & _)
       | (l & st & t0 & t' & _ & _ & -> & _ & Hst)]; simpl; tauto.
Qed.

Lemma exit_status_values_witness :
  OW_GENERIC_ERROR = 0 \/ OW_GENERIC_ERROR = 1 \/
  OW_GENERIC_ERROR = (ow_get_devices first_busy_world).1.
Proof.
  apply (exit_status_values first_busy_world [opt_n "0"] OW_GENERIC_ERROR
           [EvGetDevice 0 None; EvJclientInit 0 (mk_jclient dev_a 24 2 (-1))]).
  reflexivity.
Defined.

(** X16.  Fleet mode from the command line: with no device selection, no
    list-devices flag, no help, no unrecognised option, and the block count
    and the priority given at most once each, a run that ends without a join
    on a never-written handle ends with the status of the enumeration, 0 when
    it succeeds; when it succeeds every enumerated device was initialized
    and has its thread, in the order of the enumeration, and when it fails
    no worker was initialized and no thread created. *)
Theorem fleet_mode_status (w : world) (opts : list getopt_ret)
    (st : Z) (t : list event) :
  times_given is_opt_h opts = 0 ->
  times_given is_opt_unknown opts = 0 ->
  times_given is_opt_l opts = 0 ->
  times_given is_opt_n opts = 0 ->
  times_given is_opt_d opts = 0 ->
  times_given is_opt_b opts <= 1 ->
  times_given is_opt_p opts <= 1 ->
  behaviour_of (run w opts) = Ends st t ->
  st = (ow_get_devices w).1 /\
  length (inits t) =
    (if (ow_get_devices w).1 =? 0 then length (ow_get_devices w).2 else O) /\
  threads_created t =
    (if (ow_get_devices w).1 =? 0 then seq 0 (length (ow_get_devices w).2) else []).
Proof.
  intros Hh He Hl Hn Hd Hb Hp Hends.
  apply behaviour_ends in Hends as (-> & -> & Hdef).
  apply undefined_prefix_joins in Hdef. revert Hdef.
  destruct (getopt_loop_runs opts initial_locals (initial_proc w) Hh)
    as (l & p & Hloop & Hread).
  destruct Hread as (_ & Hl' & Hd' & Hb' & Hp' & Hn' & He' & _ & _ & _ & t0 & Ht0 & Hw0).
  simpl in *.
  unfold run, main. rewrite (bind_returns _ _ _ _ _ Hloop).
  rewrite after_options_dispatch by lia.
  rewrite dispatch_fleet by lia.
  apply warnings_quiet, quiet_trace in Hw0 as (Hi0 & Hc0 & Hj0).
  set (p1 := if negb (vflg l =? 0) then set_debug_level (vflg l) p else p).
  assert (Hp1 : trace p1 = t0) by (unfold p1; rewrite trace_verbosity; exact Ht0).
  clearbody p1.
  destruct (ow_get_devices w) as [err devices] eqn:Hdev. simpl.
  destruct (Z.eqb_spec err 0) as [-> | Herr].
  - rewrite (run_all_runs w _ _ _ devices p1 Hdev). simpl. rewrite Hp1.
    rewrite joins_app, inits_app, threads_created_app, Hi0, Hc0, Hj0. simpl.
    rewrite joins_app, joins_spawn, joins_of_joins, joined_handles. simpl.
    rewrite inits_app, inits_joins, app_nil_r, inits_spawn.
    rewrite threads_created_app, threads_created_joins, app_nil_r.
    rewrite threads_created_spawn_handles.
    intros Hdef. split; [reflexivity |].
    split; [rewrite length_zip_with, length_seq; lia |].
    apply all_handles_written, Hdef.
  - rewrite (run_all_fails w _ _ _ err devices p1 Hdev Herr). simpl. rewrite Hp1.
    rewrite inits_app, threads_created_app, Hi0, Hc0. intros _.
    repeat split.
Qed.

Lemma fleet_mode_status_witness :
  0 = (ow_get_devices healthy_world).1 /\
  length (inits (run healthy_world [opt_v; opt_q "4"; opt_b "8"]).2) =
    (if (ow_get_devices healthy_world).1 =? 0
     then length (ow_get_devices healthy_world).2 else O) /\
  threads_created (run healthy_world [opt_v; opt_q "4"; opt_b "8"]).2 =
    (if (ow_get_devices healthy_world).1 =? 0
     then seq 0 (length (ow_get_devices healthy_world).2) else []).
Proof.
  apply (fleet_mode_status healthy_world [opt_v; opt_q "4"; opt_b "8"] 0
           (run healthy_world [opt_v; opt_q "4"; opt_b "8"]).2);
    try reflexivity; simpl; lia.
Defined.

(** X17.  The verbosity is the number of [-v] flags: at the end of any run
    that neither asks for help nor holds an unrecognised option,
    [debug_level] is that number, whichever way the run went. *)
Theorem debug_level_counts_verbose_flags (w : world) (opts : list getopt_ret) :
  times_given is_opt_h opts = 0 ->
  times_given is_opt_unknown opts = 0 ->
  debug_level (main w opts (initial_proc w)).2 = times_given is_opt_v opts.
Proof.
  intros Hh He.
  destruct (getopt_loop_runs opts initial_locals (initial_proc w) Hh)
    as (l & p & Hloop & Hread).
  destruct Hread as (Hv & _ & _ & _ & _ & _ & He' & Hlevel & _).
  simpl in Hv, He', Hlevel.
  unfold main. rewrite (bind_returns _ _ _ _ _ Hloop).
  assert (Hcount : (if vflg l =? 0 then debug_level p else vflg l)
                   = times_given is_opt_v opts).
  { destruct (Z.eqb_spec (vflg l) 0); lia. }
  destruct (after_options_cases w l p)
    as [(st & p' & t & -> & _ & _ & _ & Hd)
       | (p1 & _ & Hp1 & _ & _ & [[_ ->] | [_ ->]])].
  - simpl. rewrite Hd.
    destruct (Z.gtb_spec (errflg l) 0); [lia |]. exact Hcount.
  - match goal with
    | |- context [run_all w ?b ?q ?pr p1] =>
        destruct (run_all_worker_calls w b q pr p1) as (p' & t & -> & _ & _ & Hd & _)
    end.
    simpl. rewrite Hd, Hp1. exact Hcount.
  - match goal with
    | |- context [run_single w ?n ?name ?b ?q ?pr p1] =>
        destruct (run_single_worker_calls w n name b q pr p1)
          as (st & p' & t & -> & _ & _ & _ & Hd & _)
    end.
    simpl. rewrite Hd, Hp1. exact Hcount.
Qed.

Lemma debug_level_counts_verbose_flags_witness :
  debug_level (main healthy_world [opt_v; opt_n "1"; opt_v] (initial_proc healthy_world)).2
  = times_given is_opt_v [opt_v; opt_n "1"; opt_v].
Proof.
  apply (debug_level_counts_verbose_flags healthy_world [opt_v; opt_n "1"; opt_v]);
    reflexivity.
Defined.

(** X18.  The help flag wins over everything: wherever it stands on the
    command line, the last call of the launcher is the printing of the usage
    and the process exits with status 0; the launcher makes no call that
    reaches the bus, a device or a worker. *)
Theorem help_exits_with_success (w : world) (opts : list getopt_ret) :
  0 < times_given is_opt_h opts ->
  (run w opts).1 = EXIT_SUCCESS /\
  last (run w opts).2 = Some EvPrintHelp /\
  Forall (fun e => touches_device e = false) (run w opts).2 /\
  Forall (fun e => is_worker_call e = false) (run w opts).2.
Proof.
  intros Hh. destruct (run_help w opts Hh) as (t & Hw & Hrun).
  rewrite Hrun. simpl. split; [reflexivity |]. split; [apply last_snoc |].
  split; apply Forall_app; split;
    try (repeat constructor; fail);
    [apply warning_touches_no_device, Hw | apply warnings_quiet, Hw].
Qed.

Lemma help_exits_with_success_witness :
  (run broken_bus_world [opt_q "x"; opt_l; opt_h; opt_b "1"]).1 = EXIT_SUCCESS /\
  last (run broken_bus_world [opt_q "x"; opt_l; opt_h; opt_b "1"]).2
    = Some EvPrintHelp /\
  Forall (fun e => touches_device e = false)
    (run broken_bus_world [opt_q "x"; opt_l; opt_h; opt_b "1"]).2 /\
  Forall (fun e => is_worker_call e = false)
    (run broken_bus_world [opt_q "x"; opt_l; opt_h; opt_b "1"]).2.
Proof.
  apply (help_exits_with_success broken_bus_world
           [opt_q "x"; opt_l; opt_h; opt_b "1"]).
  simpl. lia.
Defined.

(** X19.  An unrecognised option on a command line that does not ask for
    help: the last call of the launcher is the printing of the usage and the
    process exits with [EXIT_FAILURE], whatever else is given, the
    list-devices flag included; the launcher makes no call that reaches the
    bus, a device or a worker, and the verbosity is not set. *)
Theorem unrecognised_option_exits_with_failure (w : world) (opts : list getopt_ret) :
  times_given is_opt_h opts = 0 ->
  0 < times_given is_opt_unknown opts ->
  (run w opts).1 = EXIT_FAILURE /\
  last (run w opts).2 = Some EvPrintHelp /\
  Forall (fun e => touches_device e = false) (run w opts).2 /\
  Forall (fun e => is_worker_call e = false) (run w opts).2 /\
  debug_level (main w opts (initial_proc w)).2 = 0.
Proof.
  intros Hh He.
  destruct (getopt_loop_runs opts initial_locals (initial_proc w) Hh)
    as (l & p & Hloop & Hread).
  destruct Hread as (_ & _ & _ & _ & _ & _ & He' & Hlevel & _ & _ & t & Ht & Hw).
  simpl in He', Hlevel, Ht.
  unfold run, main. rewrite (bind_returns _ _ _ _ _ Hloop).
  unfold after_options, when.
  destruct (Z.gtb_spec (errflg l) 0); [| lia].
  rewrite bind_assoc, bind_emit, bind_exit. simpl.
  rewrite Ht. split; [reflexivity |]. split; [apply last_snoc |].
  split; [| split; [| exact Hlevel]]; apply Forall_app; split;
    try (repeat constructor; fail);
    [apply warning_touches_no_device, Hw | apply warnings_quiet, Hw].
Qed.

Lemma unrecognised_option_exits_with_failure_witness :
  (run healthy_world [opt_v; opt_l; opt_p "100"; opt_unknown]).1 = EXIT_FAILURE /\
  last (run healthy_world [opt_v; opt_l; opt_p "100"; opt_unknown]).2
    = Some EvPrintHelp /\
  Forall (fun e => touches_device e = false)
    (run healthy_world [opt_v; opt_l; opt_p "100"; opt_unknown]).2 /\
  Forall (fun e => is_worker_call e = false)
    (run healthy_world [opt_v; opt_l; opt_p "100"; opt_unknown]).2 /\
  debug_level (main healthy_world [opt_v; opt_l; opt_p "100"; opt_unknown]
                 (initial_proc healthy_world)).2 = 0.
Proof.
  apply (unrecognised_option_exits_with_failure healthy_world
           [opt_v; opt_l; opt_p "100"; opt_unknown]).
  - reflexivity.
  - simpl. lia.
Defined.

(** ** The device selection, from the command line to the lookup *)

(* What the loop leaves in [device_num] and [device_name]. *)
Lemma getopt_loop_selection (opts : list getopt_ret) :
  forall (l l' : locals) (p p' : proc),
    getopt_loop opts l p = (Ret l', p') ->
    (times_given is_opt_n opts = 0 -> device_num l' = device_num l) /\
    (times_given is_opt_d opts = 0 -> device_name l' = device_name l) /\
    (0 < times_given is_opt_n opts ->
     exists s, opt_n s ∈ opts /\ device_num l' = to_int (strtol_value (strtol s))) /\
    (0 < times_given is_opt_d opts ->
     exists s, opt_d s ∈ opts /\ device_name l' = Some s).
Proof.
  induction opts as [| o rest IH]; intros l l' p p'.
  - intros [= <- _]. simpl. repeat split; intros; try reflexivity; lia.
  - simpl getopt_loop. unfold mbind, M_bind.
    destruct (handle_option o l p) as [[l1 | st] p1] eqn:Hrun; [| discriminate].
    intros Hrest. destruct (IH l1 l' p1 p' Hrest) as (Hn0 & Hd0 & Hn1 & Hd1).
    pose proof (times_given_nonneg is_opt_n rest) as Hn.
    pose proof (times_given_nonneg is_opt_d rest) as Hd.
    assert (Hstep :
      device_num l1 = (match o with
                       | opt_n s => to_int (strtol_value (strtol s))
                       | _ => device_num l
                       end) /\
      device_name l1 = (match o with
                        | opt_d s => Some s
                        | _ => device_name l
                        end)).
    { destruct o as [s | s | s | s | s | | | |]; unfold handle_option in Hrun;
        try (rewrite (bind_returns _ _ _ _ _ (call_strtol_runs s p)) in Hrun;
             cbv beta iota in Hrun; try rewrite bind_gets in Hrun);
        try (destruct (rejected _ s _ _ _ _); [rewrite bind_emit in Hrun |]);
        try discriminate Hrun;
        injection Hrun as <- _; split; reflexivity. }
    destruct Hstep as [Hnum Hname].
    assert (Hin : forall x, x ∈ rest -> x ∈ o :: rest) by (intros; right; assumption).
    simpl times_given.
    destruct o as [s | s | s | s | s | | | |]; simpl is_opt_n; simpl is_opt_d;
      cbv iota; rewrite ?Z.add_0_l;
      (split; [| split; [| split]]);
      try (intros; exfalso; lia);
      try (intros H0; rewrite (Hn0 H0) || rewrite (Hd0 H0); assumption);
      try (intros H1; destruct (Hn1 H1) as (s' & Hs' & ->); exists s'; auto);
      try (intros H1; destruct (Hd1 H1) as (s' & Hs' & ->); exists s'; auto).
    + intros _. destruct (Z.eq_dec (times_given is_opt_n rest) 0) as [Hz | Hz].
      * exists s. split; [left |]. rewrite (Hn0 Hz). exact Hnum.
      * destruct (Hn1 ltac:(lia)) as (s' & Hs' & ->). exists s'. auto.
    + intros _. destruct (Z.eq_dec (times_given is_opt_d rest) 0) as [Hz | Hz].
      * exists s. split; [left |]. rewrite (Hd0 Hz). exact Hname.
      * destruct (Hd1 ltac:(lia)) as (s' & Hs' & ->). exists s'. auto.
Qed.

(* [run_single] begins with the lookup, and makes no other. *)
Lemma run_single_lookup_first (w : world) (device_num : Z)
    (device_name : option string) (b q pr : Z) (p : proc) :
  exists (status : Z) (p' : proc) (t : list event),
    run_single w device_num device_name b q pr p = (Ret status, p') /\
    (status = 0 \/ status = 1) /\
    trace p' = trace p ++ EvGetDevice device_num device_name :: t /\
    Forall (fun e => is_worker_call e = true) t.
Proof.
  destruct (ow_get_usb_device_from_device_attrs w device_num device_name)
    as [device | | err] eqn:Hres.
  - rewrite (run_single_resolved _ _ _ _ _ _ _ _ Hres).
    destruct (jclient_init w 0 (mk_jclient device b q pr) =? 0);
      eexists _, _, _; (split; [reflexivity |]); cbn [trace];
      (split; [auto |]); (split; [reflexivity |]); repeat constructor.
  - rewrite run_single_unresolved by (intros d; rewrite Hres; discriminate).
    eexists _, _, []. split; [reflexivity |]. split; [right; reflexivity |].
    split; [reflexivity | constructor].
  - rewrite run_single_unresolved by (intros d; rewrite Hres; discriminate).
    eexists _, _, []. split; [reflexivity |]. split; [right; reflexivity |].
    split; [reflexivity | constructor].
Qed.

(* Single-device mode from the command line. *)
Lemma run_single_device (w : world) (opts : list getopt_ret) :
  times_given is_opt_h opts = 0 ->
  times_given is_opt_unknown opts = 0 ->
  times_given is_opt_l opts = 0 ->
  times_given is_opt_n opts + times_given is_opt_d opts = 1 ->
  times_given is_opt_b opts <= 1 ->
  times_given is_opt_p opts <= 1 ->
  exists (l : locals) (p : proc) (st : Z) (t0 t : list event),
    getopt_loop opts initial_locals (initial_proc w) = (Ret l, p) /\
    run w opts = (st, t0 ++ EvGetDevice (device_num l) (device_name l) :: t) /\
    (st = 0 \/ st = 1) /\
    Forall (fun e => is_warning e = true) t0 /\
    Forall (fun e => is_worker_call e = true) t.
Proof.
  intros Hh He Hl Hnd Hb Hp.
  destruct (getopt_loop_runs opts initial_locals (initial_proc w) Hh)
    as (l & p & Hloop & Hread).
  destruct Hread as (_ & Hl' & Hd' & Hb' & Hp' & Hn' & He' & _ & _ & _ & t0 & Ht0 & Hw0).
  simpl in *.
  exists l, p. unfold run, main. rewrite (bind_returns _ _ _ _ _ Hloop).
  rewrite after_options_dispatch by lia.
  rewrite dispatch_single by lia.
  match goal with
  | |- context [run_single w ?n ?name ?b ?q ?pr ?p1] =>
      destruct (run_single_lookup_first w n name b q pr p1)
        as (st & p' & t & -> & Hst & Ht & Hcalls)
  end.
  exists st, t0, t. simpl. rewrite Ht, trace_verbosity, Ht0.
  repeat split; assumption.
Qed.

(** X20.  Selection by name, from the command line: with one [-d], no [-n],
    no list-devices flag, no help, no unrecognised option, and the block
    count and the priority given at most once each, the launcher makes one
    lookup, with the name given and the number -1, right after the warnings
    of the option loop; only calls on the one worker follow, and the exit
    status is 0 or 1. *)
Theorem selection_by_name (w : world) (opts : list getopt_ret) :
  times_given is_opt_h opts = 0 ->
  times_given is_opt_unknown opts = 0 ->
  times_given is_opt_l opts = 0 ->
  times_given is_opt_n opts = 0 ->
  times_given is_opt_d opts = 1 ->
  times_given is_opt_b opts <= 1 ->
  times_given is_opt_p opts <= 1 ->
  exists (name : string) (st : Z) (t0 t : list event),
    opt_d name ∈ opts /\
    run w opts = (st, t0 ++ EvGetDevice (-1) (Some name) :: t) /\
    (st = 0 \/ st = 1) /\
    Forall (fun e => is_warning e = true) t0 /\
    Forall (fun e => is_worker_call e = true) t.
Proof.
  intros Hh He Hl Hn Hd Hb Hp.
  destruct (run_single_device w opts Hh He Hl ltac:(lia) Hb Hp)
    as (l & p & st & t0 & t & Hloop & Hrun & Hst & Hw & Hcalls).
  destruct (getopt_loop_selection opts _ _ _ _ Hloop) as (Hnum & _ & _ & Hname).
  destruct (Hname ltac:(lia)) as (name & Hin & Hname').
  rewrite (Hnum Hn), Hname' in Hrun.
  exists name, st, t0, t. auto.
Qed.

Lemma selection_by_name_witness :
  exists (name : string) (st : Z) (t0 t : list event),
    opt_d name ∈ [opt_q "7"; opt_d "Digitone"] /\
    run healthy_world [opt_q "7"; opt_d "Digitone"]
      = (st, t0 ++ EvGetDevice (-1) (Some name) :: t) /\
    (st = 0 \/ st = 1) /\
    Forall (fun e => is_warning e = true) t0 /\
    Forall (fun e => is_worker_call e = true) t.
Proof.
  apply (selection_by_name healthy_world [opt_q "7"; opt_d "Digitone"]);
    try reflexivity; simpl; lia.
Defined.

(** X21.  Selection by number, from the command line: with one [-n], no
    [-d], no list-devices flag, no help, no unrecognised option, and the
    block count and the priority given at most once each, the launcher makes
    one lookup, with a null name and the [int] that [strtol] makes of the
    text given, right after the warnings of the option loop; only calls on
    the one worker follow, and the exit status is 0 or 1. *)
Theorem selection_by_number (w : world) (opts : list getopt_ret) :
  times_given is_opt_h opts = 0 ->
  times_given is_opt_unknown opts = 0 ->
  times_given is_opt_l opts = 0 ->
  times_given is_opt_n opts = 1 ->
  times_given is_opt_d opts = 0 ->
  times_given is_opt_b opts <= 1 ->
  times_given is_opt_p opts <= 1 ->
  exists (s : string) (st : Z) (t0 t : list event),
    opt_n s ∈ opts /\
    run w opts =
      (st, t0 ++ EvGetDevice (to_int (strtol_value (strtol s))) None :: t) /\
    (st = 0 \/ st = 1) /\
    Forall (fun e => is_warning e = true) t0 /\
    Forall (fun e => is_worker_call e = true) t.
Proof.
  intros Hh He Hl Hn Hd Hb Hp.
  destruct (run_single_device w opts Hh He Hl ltac:(lia) Hb Hp)
    as (l & p & st & t0 & t & Hloop & Hrun & Hst & Hw & Hcalls).
  destruct (getopt_loop_selection opts _ _ _ _ Hloop) as (_ & Hname & Hnum & _).
  destruct (Hnum ltac:(lia)) as (s & Hin & Hnum').
  rewrite (Hname Hd), Hnum' in Hrun.
  exists s, st, t0, t. auto.
Qed.

Lemma selection_by_number_witness :
  exists (s : string) (st : Z) (t0 t : list event),
    opt_n s ∈ [opt_n "1"; opt_p "200"] /\
    run first_busy_world [opt_n "1"; opt_p "200"] =
      (st, t0 ++ EvGetDevice (to_int (strtol_value (strtol s))) None :: t) /\
    (st = 0 \/ st = 1) /\
    Forall (fun e => is_warning e = true) t0 /\
    Forall (fun e => is_worker_call e = true) t.
Proof.
  apply (selection_by_number first_busy_world [opt_n "1"; opt_p "200"]);
    try reflexivity; simpl; lia.
Defined.

(** X22.  A numeric option whose number fits an [int]: when no digit was
    read, when something follows the digits, or when the number lies outside
    the range of the option, the option takes its default (quality 2, block
    count 24, priority -1) and its warning is the one call it adds to the
    trace; the loop goes on, the process is not ended. *)
Theorem malformed_values_coerced (s : string) (l : locals) (p : proc) :
  INT_MIN <= (parse_decimal s).1 <= INT_MAX ->
  ((parse_decimal s).2 = O \/ not_at_end s (parse_decimal s).2 = true \/
   (parse_decimal s).1 < 0 \/ 4 < (parse_decimal s).1 ->
   exists p', handle_option (opt_q s) l p = (Ret (set_quality 2 l), p') /\
              trace p' = trace p ++ [EvStderr (MsgQuality 2)]) /\
  ((parse_decimal s).2 = O \/ not_at_end s (parse_decimal s).2 = true \/
   (parse_decimal s).1 < 2 \/ 32 < (parse_decimal s).1 ->
   exists p', handle_option (opt_b s) l p = (Ret (set_blocks 24 l), p') /\
              trace p' = trace p ++ [EvStderr (MsgBlocks 24)]) /\
  ((parse_decimal s).2 = O \/ not_at_end s (parse_decimal s).2 = true \/
   (parse_decimal s).1 < 0 \/ 99 < (parse_decimal s).1 ->
   exists p', handle_option (opt_p s) l p = (Ret (set_priority (-1) l), p') /\
              trace p' = trace p ++ [EvStderr MsgPriority]).
Proof.
  intros Hint. split; [| split]; intros Hbad; eexists; split.
  - apply quality_coerced; assumption.
  - reflexivity.
  - apply blocks_coerced; assumption.
  - reflexivity.
  - apply priority_coerced; assumption.
  - reflexivity.
Qed.

Lemma malformed_values_coerced_witness :
  (exists p', handle_option (opt_q "12x") initial_locals (initial_proc healthy_world)
              = (Ret (set_quality 2 initial_locals), p') /\
              trace p' = trace (initial_proc healthy_world) ++ [EvStderr (MsgQuality 2)]) /\
  (exists p', handle_option (opt_b "12x") initial_locals (initial_proc healthy_world)
              = (Ret (set_blocks 24 initial_locals), p') /\
              trace p' = trace (initial_proc healthy_world) ++ [EvStderr (MsgBlocks 24)]) /\
  (exists p', handle_option (opt_p "12x") initial_locals (initial_proc healthy_world)
              = (Ret (set_priority (-1) initial_locals), p') /\
              trace p' = trace (initial_proc healthy_world) ++ [EvStderr MsgPriority]).
Proof.
  destruct (malformed_values_coerced "12x" initial_locals (initial_proc healthy_world))
    as (Hq & Hb & Hp).
  - vm_compute. split; discriminate.
  - split; [apply Hq; right; left; reflexivity |].
    split; [apply Hb; right; left; reflexivity | apply Hp; right; left; reflexivity].
Defined.
